(** * PromptsGenie: the Python prompt generator, its web handler and its CLI

    A shallow embedding of [prompt_generator.py], [app.py] and [cli.py].

    Python values are dynamically typed, so the data that flows through the
    three modules (JSON bodies, result dictionaries, keyword arguments) is one
    inductive type [PyVal].  Dictionaries are association lists in insertion
    order, as Python dictionaries are.  A string is the sequence of the UTF-8
    bytes of a Python string; every text the program itself contains is kept
    verbatim.  Python integers are
    unbounded ([Z]); Python floats are the binary64 numbers of [PrimFloat].

    Exceptions and effects are threaded through a small monad [M]: a
    computation yields either a value or a raised exception, together with the
    trace of the effects it performed (provider calls, log records, prints).
    Only exceptions deriving from [Exception] are modelled in [M];
    [KeyboardInterrupt] appears where the program handles it, at the prompts
    of the interactive loop.  The texts of the errors Python itself raises
    are those of CPython 3.11; no statement below depends on their wording. *)

From Stdlib Require Import String Ascii List ZArith Bool Arith Lia.
From Stdlib Require Import DecimalString PrimFloat.
Import ListNotations.
Local Open Scope list_scope.
Local Open Scope string_scope.

(** ** Python values *)

#[local] Set Warnings "-register-all".

Inductive PyVal : Type :=
| PNone
| PBool (b : bool)
| PInt (z : Z)
| PFloat (x : float)
| PStr (s : string)
| PList (l : list PyVal)
| PDict (d : list (string * PyVal)).

(** [bool(v)]: the truth value Python gives [v] in [if v:] and [not v]. *)
Definition truthy (v : PyVal) : bool :=
  match v with
  | PNone => false
  | PBool b => b
  | PInt z => negb (z =? 0)%Z
  | PFloat x => negb (PrimFloat.eqb x 0%float)
  | PStr s => negb (s =? EmptyString)
  | PList l => match l with [] => false | _ :: _ => true end
  | PDict d => match d with [] => false | _ :: _ => true end
  end.

(** [type(v).__name__], as it appears in Python's error messages. *)
Definition type_name (v : PyVal) : string :=
  match v with
  | PNone => "NoneType"
  | PBool _ => "bool"
  | PInt _ => "int"
  | PFloat _ => "float"
  | PStr _ => "str"
  | PList _ => "list"
  | PDict _ => "dict"
  end.

(** A raised exception: its class name and [str(e)]. *)
Record PyExc : Type := mkExc { exc_type : string; exc_str : string }.

(** An optional argument ([Optional[str]]) as a Python value. *)
Definition of_option (o : option string) : PyVal :=
  match o with
  | Some s => PStr s
  | None => PNone
  end.

(** ** Strings *)

Definition newline : string := String (ascii_of_nat 10) EmptyString.

(** Number of positions of [s] at which [pat] occurs. *)
Fixpoint count_occurrences (pat s : string) : nat :=
  match s with
  | EmptyString => if prefix pat EmptyString then 1 else 0
  | String _ s' => (if prefix pat s then 1 else 0) + count_occurrences pat s'
  end.

(** Python's [pat in s] on two strings. *)
Definition str_contains (pat s : string) : bool :=
  negb (count_occurrences pat s =? 0)%nat.

(** Position of the first occurrence of [pat] in [s] ([s.find(pat)]). *)
Fixpoint first_occurrence (pat s : string) : option nat :=
  if prefix pat s then Some 0
  else match s with
       | EmptyString => None
       | String _ s' => option_map S (first_occurrence pat s')
       end.

(** [avoids c s]: the character [c] does not occur in [s]. *)
Fixpoint avoids (c : ascii) (s : string) : bool :=
  match s with
  | EmptyString => true
  | String x s' => negb (Ascii.eqb x c) && avoids c s'
  end.

(** [s.endswith(suf)]. *)
Fixpoint ends_with (s suf : string) : bool :=
  (s =? suf) ||
  match s with
  | EmptyString => false
  | String _ s' => ends_with s' suf
  end.

Fixpoint str_repeat (s : string) (n : nat) : string :=
  match n with
  | O => EmptyString
  | S n' => s ++ str_repeat s n'
  end.

(** White space, the characters [str.strip()] removes: those for which
    [str.isspace()] holds.  In ASCII they are the codes 9 to 13, 28 to 31 and
    32; beyond ASCII they are U+0085, U+00A0, U+1680, U+2000 to U+200A,
    U+2028, U+2029, U+202F, U+205F and U+3000, read here in their UTF-8
    bytes. *)
Definition is_space (c : ascii) : bool :=
  let n := nat_of_ascii c in
  ((n =? 32) || ((9 <=? n) && (n <=? 13)) || ((28 <=? n) && (n <=? 31)))%nat.

Definition byte_is (c : ascii) (n : N) : bool := (N_of_ascii c =? n)%N.

Definition byte_in (c : ascii) (lo hi : N) : bool :=
  ((lo <=? N_of_ascii c) && (N_of_ascii c <=? hi))%N.

(** The number of bytes of the white-space character [s] starts with; 0 when
    [s] starts with another character or is empty. *)
Definition leading_space (s : string) : nat :=
  match s with
  | String c r =>
      if is_space c then 1
      else
        match r with
        | String d r' =>
            if byte_is c 194 && (byte_is d 133 || byte_is d 160) then 2
            else
              match r' with
              | String e _ =>
                  if (byte_is c 225 && byte_is d 154 && byte_is e 128)
                     || (byte_is c 226 && byte_is d 128
                         && (byte_in e 128 138 || byte_in e 168 169
                             || byte_is e 175))
                     || (byte_is c 226 && byte_is d 129 && byte_is e 159)
                     || (byte_is c 227 && byte_is d 128 && byte_is e 128)
                  then 3 else 0
              | EmptyString => 0
              end
        | EmptyString => 0
        end
  | EmptyString => 0
  end.

(** [s] from its first character that is not white space on, [skip] bytes
    of a white-space character still to pass. *)
Fixpoint drop_spaces (skip : nat) (s : string) {struct s} : string :=
  match s with
  | EmptyString => EmptyString
  | String _ r =>
      match skip with
      | S k => drop_spaces k r
      | O =>
          match leading_space s with
          | O => s
          | S k => drop_spaces k r
          end
      end
  end.

(** [s.lstrip()] *)
Definition lstrip (s : string) : string := drop_spaces 0 s.

(** [s.rstrip()]: the longest end of [s] that is white space throughout is
    cut off. *)
Fixpoint rstrip (s : string) : string :=
  match s with
  | EmptyString => EmptyString
  | String c r => if lstrip s =? EmptyString then EmptyString
                  else String c (rstrip r)
  end.

(** [s.strip()] *)
Definition strip (s : string) : string := rstrip (lstrip s).

Definition lower_ascii (c : ascii) : ascii :=
  let n := nat_of_ascii c in
  if ((65 <=? n) && (n <=? 90))%nat then ascii_of_nat (n + 32) else c.

(** [s.lower()] on the ASCII letters, other bytes kept.  The program only
    compares the result with the words quit, exit and q.  Outside ASCII the
    lower case of a character holds an ASCII letter for two characters only:
    U+212A, which gives k, a letter of none of the words, and U+0130, which
    gives i followed by U+0307, a text that is none of the words.  So the
    comparison is decided as Python decides it. *)
Fixpoint lower (s : string) : string :=
  match s with
  | EmptyString => EmptyString
  | String c s' => String (lower_ascii c) (lower s')
  end.

(** ** Dictionaries as association lists *)

Fixpoint assoc {A : Type} (k : string) (d : list (string * A)) : option A :=
  match d with
  | [] => None
  | (k', v) :: d' => if k' =? k then Some v else assoc k d'
  end.

(** ** The effect monad *)

(** The request sent to the provider by [client.messages.create]. *)
Record ProviderRequest : Type := mkRequest {
  req_model : string;
  req_max_tokens : Z;
  req_temperature : float;
  req_system : string;
  req_messages : list (string * string)   (* role, content *)
}.

Inductive Stream : Type := Stdout | Stderr.

Inductive Event : Type :=
| GenerateCall (user_input context prompt_type custom_instructions : PyVal)
| ProviderCall (req : ProviderRequest)
| LogInfo (msg : string)
| LogError (msg : string)
| Print (stream : Stream) (text : string).

Definition Trace : Type := list Event.

Definition M (A : Type) : Type := (Trace * (PyExc + A))%type.

Definition ret {A} (a : A) : M A := ([], inr a).

Definition raise {A} (e : PyExc) : M A := ([], inl e).

Definition bind {A B} (m : M A) (f : A -> M B) : M B :=
  match m with
  | (t, inl e) => (t, inl e)
  | (t, inr a) => let (t', r) := f a in ((t ++ t')%list, r)
  end.

(** [try: m except Exception as e: h e] *)
Definition try_except {A} (m : M A) (h : PyExc -> M A) : M A :=
  match m with
  | (t, inl e) => let (t', r) := h e in ((t ++ t')%list, r)
  | (t, inr a) => (t, inr a)
  end.

Definition emit (ev : Event) : M unit := ([ev], inr tt).

Definition trace_of {A} (m : M A) : Trace := fst m.
Definition outcome {A} (m : M A) : PyExc + A := snd m.

Declare Scope py_scope.
Delimit Scope py_scope with py.
Notation "x <- m ;; k" := (bind m (fun x => k))
  (at level 61, m at next level, right associativity) : py_scope.
Notation "m ;; k" := (bind m (fun _ => k))
  (at level 61, right associativity) : py_scope.
Local Open Scope py_scope.

Definition logger_info (msg : string) : M unit := emit (LogInfo msg).
Definition logger_error (msg : string) : M unit := emit (LogError msg).
Definition print (text : string) : M unit := emit (Print Stdout text).
Definition print_err (text : string) : M unit := emit (Print Stderr text).

(** ** Python's own errors and operations *)

Definition TypeError (msg : string) : PyExc := mkExc "TypeError" msg.
Definition KeyError (msg : string) : PyExc := mkExc "KeyError" msg.
Definition AttributeError (msg : string) : PyExc := mkExc "AttributeError" msg.
Definition ValueError (msg : string) : PyExc := mkExc "ValueError" msg.

Definition no_attribute (class_name attr : string) : PyExc :=
  AttributeError ("'" ++ class_name ++ "' object has no attribute '" ++ attr ++ "'").

(** [d[k]] on a dictionary literal with string keys. *)
Definition dict_item {A} (d : list (string * A)) (k : string) : M A :=
  match assoc k d with
  | Some v => ret v
  | None => raise (KeyError ("'" ++ k ++ "'"))
  end.

(** [d.get(k, default)] where the key is any Python value: a list or a
    dictionary is unhashable, every other key that is not a string of [d]
    yields the default. *)
Definition dict_get_default {A} (d : list (string * A)) (k : PyVal) (default : A)
  : M A :=
  match k with
  | PList _ | PDict _ =>
      raise (TypeError ("unhashable type: '" ++ type_name k ++ "'"))
  | PStr s =>
      match assoc s d with
      | Some v => ret v
      | None => ret default
      end
  | _ => ret default
  end.

(** [k in v] for a string [k]: key membership on a dictionary, element
    membership on a list, substring test on a string; other values are not
    iterable. *)
Definition py_in (k : string) (v : PyVal) : M bool :=
  match v with
  | PDict d => ret (match assoc k d with Some _ => true | None => false end)
  | PList l =>
      ret (existsb (fun x => match x with PStr s => s =? k | _ => false end) l)
  | PStr s => ret (str_contains k s)
  | _ => raise (TypeError ("argument of type '" ++ type_name v ++ "' is not iterable"))
  end.

(** [v[k]] for a string [k]. *)
Definition py_getitem (v : PyVal) (k : string) : M PyVal :=
  match v with
  | PDict d =>
      match assoc k d with
      | Some x => ret x
      | None => raise (KeyError ("'" ++ k ++ "'"))
      end
  | PList _ => raise (TypeError "list indices must be integers or slices, not str")
  | PStr _ => raise (TypeError "string indices must be integers, not 'str'")
  | _ => raise (TypeError ("'" ++ type_name v ++ "' object is not subscriptable"))
  end.

(** [v.get(k, default)] for a string [k]. *)
Definition py_get (v : PyVal) (k : string) (default : PyVal) : M PyVal :=
  match v with
  | PDict d => ret (match assoc k d with Some x => x | None => default end)
  | _ => raise (no_attribute (type_name v) "get")
  end.

(** A call that returns a value or raises, as a computation. *)
Definition lift {A} (r : PyExc + A) : M A :=
  match r with
  | inl e => raise e
  | inr a => ret a
  end.

(** * The data of prompt_generator.py *)

(** [PromptConfig]: the dataclass and its defaults. *)
Record PromptConfig : Type := mkPromptConfig {
  model : string;
  max_tokens : Z;
  temperature : float;
  system_prompt : option string
}.

Definition default_PromptConfig : PromptConfig :=
  {| model := "claude-3-5-sonnet-20241022";
     max_tokens := 2048;
     temperature := 0x1.6666666666666p-1%float;   (* 0.7 *)
     system_prompt := None |}.

(** What the provider's SDK returns: the content blocks and, when the
    response object has a [usage] attribute, its two counters. *)
Inductive ContentBlock : Type :=
| TextBlock (text : string)
| OtherBlock (class_name : string).      (* a block without [.text] *)

Record Usage : Type := mkUsage { input_tokens : Z; output_tokens : Z }.

Record Response : Type := mkResponse {
  content : option (list ContentBlock);  (* [None]: [response.content] is None *)
  usage : option Usage                   (* [None]: no [usage] attribute *)
}.

(** The SDK client: what [client.messages.create] does with a request. *)
Definition Client : Type := ProviderRequest -> PyExc + Response.

Record PromptGenerator : Type := mkPromptGenerator {
  api_key : string;
  config : PromptConfig;
  client : Client
}.

(** [self.client.messages.create(...)]: one call to the provider. *)
Definition messages_create (c : Client) (req : ProviderRequest) : M Response :=
  emit (ProviderCall req) ;;
  match c req with
  | inl e => raise e
  | inr r => ret r
  end.

(** [block.text] *)
Definition block_text (b : ContentBlock) : M string :=
  match b with
  | TextBlock t => ret t
  | OtherBlock cls => raise (no_attribute cls "text")
  end.

(** [response.content[0].text if response.content else ''], the last
    operand being the empty string. *)
Definition first_text (r : Response) : M string :=
  match content r with
  | Some (b :: _) => block_text b
  | Some [] => ret EmptyString
  | None => ret EmptyString
  end.

(** [v if hasattr(response, 'usage') else None] for an integer [v]. *)
Definition usage_field (r : Response) (f : Usage -> Z) : PyVal :=
  match usage r with
  | Some u => PInt (f u)
  | None => PNone
  end.

(** The four entries of [base_prompts]. *)
Definition general_prompt : string :=
  "You are an expert prompt engineer. Your task is to create clear, effective, and well-structured prompts based on the user's requirements. 

Focus on:
- Clarity and specificity
- Proper structure and formatting
- Including relevant context and constraints
- Making the prompt actionable and results-oriented".

Definition creative_prompt : string :=
  "You are a creative prompt specialist. Your task is to generate imaginative and inspiring prompts that encourage creative thinking and artistic expression.

Focus on:
- Vivid imagery and descriptive language
- Emotional resonance and atmosphere
- Creative constraints that spark innovation
- Open-ended possibilities for exploration".

Definition technical_prompt : string :=
  "You are a technical prompt engineer specializing in programming, development, and technical documentation prompts.

Focus on:
- Technical accuracy and precision
- Clear specifications and requirements
- Best practices and standards
- Actionable technical instructions".

Definition image_prompt : string :=
  "You are an expert in creating prompts for AI image generation. Your task is to craft detailed, specific prompts that will produce high-quality visual results.

Focus on:
- Visual composition and style
- Lighting, color, and atmosphere
- Technical camera/art terminology
- Specific details about subjects and scenes".

Definition base_prompts : list (string * string) :=
  [ ("general", general_prompt);
    ("creative", creative_prompt);
    ("technical", technical_prompt);
    ("image", image_prompt) ].

(** * The data of the front ends *)

(** A Flask response: the status code and the JSON document. *)
Record HttpResponse : Type := mkHttp { status : Z; body : PyVal }.

Definition jsonify (fields : list (string * PyVal)) : PyVal := PDict fields.

(** What [input()] yields at a prompt of the interactive loop: a line, or
    Ctrl-C.  When the list of inputs is used up, standard input is at its end
    and every further [input()] raises [EOFError]. *)
Inductive InputEvent : Type :=
| Line (s : string)
| KeyboardInterrupt.

(** The parsed command line ([argparse] namespace). *)
Record Args : Type := mkArgs {
  args_input : option string;
  args_type : string;
  args_context : option string;
  args_instructions : option string;
  args_verbose : bool
}.

(** Run [m], then go on with the rest of the loop. *)
Definition then_loop {A} (m : M unit) (k : option (M A)) : option (M A) :=
  option_map (fun rest => m ;; rest) k.

(** * The program *)

Section Program.

(** Python's [str(v)] at a value that is not itself a string; at a string
    [str] and an f-string field are the string. *)
Variable str_other : PyVal -> string.

(** The constructor [anthropic.Anthropic(api_key=...)] of the provider's SDK. *)
Variable anthropic_Anthropic : string -> Client.

(** [os.getenv("ANTHROPIC_API_KEY")], after [load_dotenv()]. *)
Variable getenv_ANTHROPIC_API_KEY : option string.

(** ** prompt_generator.py *)

Definition py_format (v : PyVal) : string :=
  match v with
  | PStr s => s
  | _ => str_other v
  end.

(** [PromptGenerator.__init__] *)
Definition PromptGenerator_init (api_key : option string)
  (config : option PromptConfig) : M PromptGenerator :=
  let key :=
    if truthy (of_option api_key) then api_key else getenv_ANTHROPIC_API_KEY in
  match key with
  | Some k =>
      if truthy (PStr k) then
        let cfg := match config with Some c => c | None => default_PromptConfig end in
        let self := mkPromptGenerator k cfg (anthropic_Anthropic k) in
        logger_info ("PromptGenerator initialized with model: " ++ model cfg) ;;
        ret self
      else
        raise (ValueError "Anthropic API key is required. Set ANTHROPIC_API_KEY environment variable or pass api_key parameter.")
  | None =>
      raise (ValueError "Anthropic API key is required. Set ANTHROPIC_API_KEY environment variable or pass api_key parameter.")
  end.

(** [PromptGenerator._build_system_prompt] *)
Definition _build_system_prompt (prompt_type custom_instructions : PyVal)
  : M string :=
  default <- dict_item base_prompts "general" ;;
  system_prompt <- dict_get_default base_prompts prompt_type default ;;
  if truthy custom_instructions then
    ret (system_prompt ++ newline ++ newline ++ "Additional instructions: "
           ++ py_format custom_instructions)
  else
    ret system_prompt.

(** [PromptGenerator._build_user_message] *)
Definition _build_user_message (user_input context : PyVal) : string :=
  let message :=
    "Please create a prompt based on this request: " ++ py_format user_input in
  if truthy context then
    message ++ newline ++ newline ++ "Additional context: " ++ py_format context
  else
    message.

(** The body of the [try] block of [generate_prompt]. *)
Definition generate_prompt_try (self : PromptGenerator)
  (user_input context prompt_type custom_instructions : PyVal) : M PyVal :=
  system_prompt <- _build_system_prompt prompt_type custom_instructions ;;
  let user_message := _build_user_message user_input context in
  response <- messages_create (client self)
    {| req_model := model (config self);
       req_max_tokens := max_tokens (config self);
       req_temperature := temperature (config self);
       req_system := system_prompt;
       req_messages := [("user", user_message)] |} ;;
  generated_prompt <- first_text response ;;
  ret (PDict
    [ ("success", PBool true);
      ("prompt", PStr generated_prompt);
      ("metadata", PDict
        [ ("model", PStr (model (config self)));
          ("prompt_type", prompt_type);
          ("tokens_used",
             usage_field response (fun u => input_tokens u + output_tokens u)%Z);
          ("input_tokens", usage_field response input_tokens);
          ("output_tokens", usage_field response output_tokens) ]) ]).

(** The [except Exception as e] handler of [generate_prompt]. *)
Definition generate_prompt_except (e : PyExc) : M PyVal :=
  logger_error ("Error generating prompt: " ++ exc_str e) ;;
  ret (PDict
    [ ("success", PBool false);
      ("error", PStr (exc_str e));
      ("prompt", PNone);
      ("metadata", PNone) ]).

(** [PromptGenerator.generate_prompt]; the entry into the method is recorded
    in the trace. *)
Definition generate_prompt (self : PromptGenerator)
  (user_input context prompt_type custom_instructions : PyVal) : M PyVal :=
  emit (GenerateCall user_input context prompt_type custom_instructions) ;;
  try_except
    (generate_prompt_try self user_input context prompt_type custom_instructions)
    generate_prompt_except.

(** [PromptGenerator.analyze_image_for_prompt] *)
Definition analyze_image_for_prompt (self : PromptGenerator)
  (image_path analysis_type : string) : PyVal :=
  PDict
    [ ("success", PBool false);
      ("error", PStr "Image analysis not yet implemented");
      ("prompt", PNone);
      ("metadata", PDict [("analysis_type", PStr analysis_type)]) ].

(** ** app.py *)

(** The module-level [generator]: [None] when the constructor raised. *)
Definition init_generator : M (option PromptGenerator) :=
  try_except
    (g <- PromptGenerator_init None None ;;
     logger_info "Prompt generator initialized successfully" ;;
     ret (Some g))
    (fun e =>
       logger_error ("Failed to initialize prompt generator: " ++ exc_str e) ;;
       ret None).

(** The [try] block of [generate_prompt_api]; [get_json] is what
    [request.get_json()] does. *)
Definition generate_prompt_api_try (g : PromptGenerator)
  (get_json : PyExc + PyVal) : M HttpResponse :=
  data <- lift get_json ;;
  missing <- (if negb (truthy data) then ret true
              else (present <- py_in "user_input" data ;; ret (negb present))) ;;
  if missing : bool then
    ret (mkHttp 400 (jsonify
      [ ("success", PBool false);
        ("error", PStr "Missing required field: user_input") ]))
  else
    user_input <- py_getitem data "user_input" ;;
    context <- py_get data "context" PNone ;;
    prompt_type <- py_get data "prompt_type" (PStr "general") ;;
    custom_instructions <- py_get data "custom_instructions" PNone ;;
    result <- generate_prompt g user_input context prompt_type custom_instructions ;;
    ret (mkHttp 200 result).

(** [generate_prompt_api], the handler of [POST /generate-prompt]. *)
Definition generate_prompt_api (generator : option PromptGenerator)
  (get_json : PyExc + PyVal) : M HttpResponse :=
  match generator with
  | None =>
      ret (mkHttp 500 (jsonify
        [ ("success", PBool false);
          ("error", PStr "Prompt generator not initialized. Check your API key.") ]))
  | Some g =>
      try_except (generate_prompt_api_try g get_json)
        (fun e =>
           logger_error ("Error in generate_prompt_api: " ++ exc_str e) ;;
           ret (mkHttp 500 (jsonify
             [ ("success", PBool false);
               ("error", PStr ("Internal server error: " ++ exc_str e)) ])))
  end.

(** ** cli.py *)

Definition print_banner : M unit :=
  print "🧞‍♂️ Claude Prompt Generator CLI" ;;
  print (str_repeat "=" 40).

(** The text [input(prompt)] writes before it reads. *)
Definition input_prompt (text : string) : M unit := print text.

Definition ask_request : M unit :=
  print (newline ++ str_repeat "-" 40) ;;
  input_prompt "📝 Enter your prompt request (or 'quit'): ".

Definition ask_type : M unit :=
  print (newline ++ "🎯 Select prompt type:") ;;
  print "1. General" ;;
  print "2. Creative" ;;
  print "3. Technical" ;;
  print "4. Image Generation" ;;
  input_prompt "Enter choice (1-4, default: 1): ".

Definition ask_context : M unit :=
  input_prompt "📋 Additional context (optional): ".

Definition ask_instructions : M unit :=
  input_prompt "⚙️  Custom instructions (optional): ".

Definition prompt_types : list (string * string) :=
  [("1", "general"); ("2", "creative"); ("3", "technical"); ("4", "image")].

(** [x if x else None] *)
Definition or_none (x : string) : PyVal :=
  if truthy (PStr x) then PStr x else PNone.

(** One pass of the loop body from "Generating prompt..." on, the four
    answers read. *)
Definition answer_request (generator : PromptGenerator)
  (user_input type_choice context custom_instructions : string) : M unit :=
  prompt_type <- dict_get_default prompt_types (PStr type_choice) "general" ;;
  print (newline ++ "🔄 Generating prompt...") ;;
  result <- generate_prompt generator (PStr user_input) (or_none context)
              (PStr prompt_type) (or_none custom_instructions) ;;
  success <- py_getitem result "success" ;;
  if truthy success then
    print (newline ++ "✅ Generated Prompt:") ;;
    print (str_repeat "=" 50) ;;
    prompt <- py_getitem result "prompt" ;;
    print (py_format prompt) ;;
    print (str_repeat "=" 50) ;;
    metadata <- py_getitem result "metadata" ;;
    if truthy metadata then
      print (newline ++ "📊 Metadata:") ;;
      m <- py_getitem metadata "model" ;;
      print ("   Model: " ++ py_format m) ;;
      t <- py_getitem metadata "prompt_type" ;;
      print ("   Type: " ++ py_format t) ;;
      tokens <- py_getitem metadata "tokens_used" ;;
      if truthy tokens then print ("   Tokens: " ++ py_format tokens) else ret tt
    else ret tt
  else
    error <- py_getitem result "error" ;;
    print (newline ++ "❌ Error: " ++ py_format error).

(** [except KeyboardInterrupt] of the loop. *)
Definition interrupted : M unit := print (newline ++ newline ++ "👋 Goodbye!").

(** [except Exception as e] of the loop. *)
Definition unexpected (e : PyExc) : M unit :=
  print (newline ++ "❌ Unexpected error: " ++ exc_str e).

Definition is_quit (user_input : string) : bool :=
  existsb (String.eqb (lower user_input)) ["quit"; "exit"; "q"].

(** The [while True] loop of [interactive_mode], run on the inputs the user
    gives.  [Some m]: the loop leaves through a [break], having done [m].
    [None]: the inputs end before a [break]; from then on each [input()]
    raises [EOFError], the handler for [Exception] prints it and the loop
    starts over, for ever. *)
Fixpoint interactive_loop (generator : PromptGenerator)
  (inputs : list InputEvent) : option (M unit) :=
  match inputs with
  | [] => None
  | KeyboardInterrupt :: _ => Some (ask_request ;; interrupted)
  | Line l1 :: inputs1 =>
      let user_input := strip l1 in
      if is_quit user_input then
        Some (ask_request ;; print "👋 Goodbye!")
      else if negb (truthy (PStr user_input)) then
        then_loop (ask_request ;; print "⚠️  Please enter a valid request")
          (interactive_loop generator inputs1)
      else
        match inputs1 with
        | [] => None
        | KeyboardInterrupt :: _ =>
            Some (ask_request ;; ask_type ;; interrupted)
        | Line l2 :: inputs2 =>
            match inputs2 with
            | [] => None
            | KeyboardInterrupt :: _ =>
                Some (ask_request ;; ask_type ;; ask_context ;; interrupted)
            | Line l3 :: inputs3 =>
                match inputs3 with
                | [] => None
                | KeyboardInterrupt :: _ =>
                    Some (ask_request ;; ask_type ;; ask_context ;;
                          ask_instructions ;; interrupted)
                | Line l4 :: inputs4 =>
                    then_loop
                      (ask_request ;; ask_type ;; ask_context ;;
                       ask_instructions ;;
                       try_except
                         (answer_request generator user_input (strip l2)
                            (strip l3) (strip l4))
                         unexpected)
                      (interactive_loop generator inputs4)
                end
            end
        end
  end.

(** [interactive_mode] *)
Definition interactive_mode (inputs : list InputEvent) : option (M unit) :=
  let start :=
    print_banner ;;
    print ("Interactive Mode - Type 'quit' to exit" ++ newline) ;;
    try_except
      (g <- PromptGenerator_init None None ;; ret (Some g))
      (fun e =>
         print ("❌ Error initializing generator: " ++ exc_str e) ;;
         print "Make sure your ANTHROPIC_API_KEY is set in the .env file" ;;
         ret None) in
  match start with
  | (t, inr (Some generator)) =>
      then_loop (t, inr tt) (interactive_loop generator inputs)
  | (t, inr None) => Some (t, inr tt)
  | (t, inl e) => Some (t, inl e)
  end.

(** [single_prompt_mode] *)
Definition single_prompt_mode (args : Args) : M Z :=
  made <- try_except
            (g <- PromptGenerator_init None None ;; ret (Some g))
            (fun e =>
               print ("❌ Error initializing generator: " ++ exc_str e) ;;
               ret None) ;;
  match made with
  | None => ret 1%Z
  | Some generator =>
      result <- generate_prompt generator
                  (of_option (args_input args))
                  (of_option (args_context args))
                  (PStr (args_type args))
                  (of_option (args_instructions args)) ;;
      success <- py_getitem result "success" ;;
      if truthy success then
        prompt <- py_getitem result "prompt" ;;
        print (py_format prompt) ;;
        (if args_verbose args then
           metadata <- py_getitem result "metadata" ;;
           if truthy metadata then
             m <- py_getitem metadata "model" ;;
             print_err (newline ++ "# Model: " ++ py_format m) ;;
             t <- py_getitem metadata "prompt_type" ;;
             print_err ("# Type: " ++ py_format t) ;;
             tokens <- py_getitem metadata "tokens_used" ;;
             if truthy tokens then print_err ("# Tokens: " ++ py_format tokens)
             else ret tt
           else ret tt
         else ret tt) ;;
        ret 0%Z
      else
        error <- py_getitem result "error" ;;
        print_err ("Error: " ++ py_format error) ;;
        ret 1%Z
  end.

(** [main], from the parsed arguments on. *)
Definition main (args : Args) (inputs : list InputEvent) : option (M Z) :=
  if negb (truthy (of_option getenv_ANTHROPIC_API_KEY)) then
    Some (print "❌ Error: ANTHROPIC_API_KEY not found" ;;
          print "Please set your API key in the .env file" ;;
          ret 1%Z)
  else if truthy (of_option (args_input args)) then
    Some (single_prompt_mode args)
  else
    option_map (fun m => m ;; ret 0%Z) (interactive_mode inputs).

(** [sys.exit(main())]: the exit status of the process, when [main] ends.
    An exception that leaves [main] ends the process with status 1. *)
Definition exit_status (run : option (M Z)) : option Z :=
  match run with
  | Some (_, inr code) => Some code
  | Some (_, inl _) => Some 1%Z
  | None => None
  end.

End Program.

(** * The rest of the program *)

(** ** app.py: the other routes *)

(** [health_check], the handler of [GET /health]. *)
Definition health_check (generator : option PromptGenerator) : M HttpResponse :=
  match generator with
  | None =>
      ret (mkHttp 500 (jsonify
        [ ("status", PStr "error");
          ("message", PStr "Prompt generator not initialized") ]))
  | Some _ =>
      ret (mkHttp 200 (jsonify
        [ ("status", PStr "healthy");
          ("service", PStr "Claude Prompt Generator");
          ("version", PStr "1.0.0") ]))
  end.

(** [get_prompt_types], the handler of [GET /prompt-types]. *)
Definition get_prompt_types : M HttpResponse :=
  ret (mkHttp 200 (jsonify
    [ ("prompt_types", PList
        [ PDict [("value", PStr "general"); ("label", PStr "General Purpose")];
          PDict [("value", PStr "creative"); ("label", PStr "Creative Writing")];
          PDict [("value", PStr "technical");
                 ("label", PStr "Technical/Programming")];
          PDict [("value", PStr "image"); ("label", PStr "Image Generation")] ]) ])).

(** [not_found], the handler of error 404. *)
Definition not_found : M HttpResponse :=
  ret (mkHttp 404 (jsonify
    [ ("success", PBool false); ("error", PStr "Endpoint not found") ])).

(** [internal_error], the handler of error 500. *)
Definition internal_error : M HttpResponse :=
  ret (mkHttp 500 (jsonify
    [ ("success", PBool false); ("error", PStr "Internal server error") ])).

(** The choices [argparse] accepts for [--type] in cli.py. *)
Definition type_choices : list string :=
  ["general"; "creative"; "technical"; "image"].

Section Example.

Variable str_other : PyVal -> string.
Variable anthropic_Anthropic : string -> Client.
Variable getenv_ANTHROPIC_API_KEY : option string.

(** ** prompt_generator.py: [main], the example of use *)
Definition prompt_generator_main : M unit :=
  try_except
    (generator <- PromptGenerator_init anthropic_Anthropic
                    getenv_ANTHROPIC_API_KEY None None ;;
     result <- generate_prompt str_other generator
                 (PStr "Create a prompt for writing a science fiction story about time travel")
                 PNone (PStr "creative") PNone ;;
     success <- py_getitem result "success" ;;
     if truthy success then
       print "Generated Prompt:" ;;
       prompt <- py_getitem result "prompt" ;;
       print (py_format str_other prompt) ;;
       metadata <- py_getitem result "metadata" ;;
       tokens <- py_getitem metadata "tokens_used" ;;
       print (newline ++ "Tokens used: " ++ py_format str_other tokens)
     else
       error <- py_getitem result "error" ;;
       print ("Error: " ++ py_format str_other error))
    (fun e => print ("Error: " ++ exc_str e)).

End Example.

(** * The vocabulary of the statements *)

(** ** The Template Catalog and the Message Composer *)

Definition known_categories : list string :=
  ["general"; "creative"; "technical"; "image"].

(** The base text of a category: what [base_prompts.get] yields. *)
Definition base_text (category : string) : string :=
  match assoc category base_prompts with
  | Some t => t
  | None => general_prompt
  end.

Definition marker : string := "Additional context".

Definition request_line (user_input : string) : string :=
  "Please create a prompt based on this request: " ++ user_input.

(** ** The Generation Client *)

(** A value [dict.get] can hash. *)
Definition hashable (v : PyVal) : bool :=
  match v with
  | PList _ | PDict _ => false
  | _ => true
  end.

(** The request [generate_prompt] sends. *)
Definition request_of (self : PromptGenerator) (system_text user_text : string)
  : ProviderRequest :=
  {| req_model := model (config self);
     req_max_tokens := max_tokens (config self);
     req_temperature := temperature (config self);
     req_system := system_text;
     req_messages := [("user", user_text)] |}.

(** The two shapes of its result. *)
Definition success_result (self : PromptGenerator) (prompt_type : PyVal)
  (r : Response) (text : string) : PyVal :=
  PDict
    [ ("success", PBool true);
      ("prompt", PStr text);
      ("metadata", PDict
        [ ("model", PStr (model (config self)));
          ("prompt_type", prompt_type);
          ("tokens_used",
             usage_field r (fun u => input_tokens u + output_tokens u)%Z);
          ("input_tokens", usage_field r input_tokens);
          ("output_tokens", usage_field r output_tokens) ]) ].

Definition failure_result (e : PyExc) : PyVal :=
  PDict
    [ ("success", PBool false);
      ("error", PStr (exc_str e));
      ("prompt", PNone);
      ("metadata", PNone) ].

(** [result["success"]] is true. *)
Definition is_success (result : PyVal) : bool :=
  match result with
  | PDict fields =>
      match assoc "success" fields with
      | Some v => truthy v
      | None => false
      end
  | _ => false
  end.

Definition is_generate_call (ev : Event) : bool :=
  match ev with GenerateCall _ _ _ _ => true | _ => false end.

Definition is_provider_call (ev : Event) : bool :=
  match ev with ProviderCall _ => true | _ => false end.

(** ** The front ends *)

(** A JSON body in which the user_input key is missing: null, or an object
    without that key. *)
Definition lacks_user_input (data : PyVal) : bool :=
  match data with
  | PNone => true
  | PDict d => match assoc "user_input" d with None => true | Some _ => false end
  | _ => false
  end.

Definition missing_field_response : HttpResponse :=
  mkHttp 400 (PDict [ ("success", PBool false);
                      ("error", PStr "Missing required field: user_input") ]).

Definition not_initialized_response : HttpResponse :=
  mkHttp 500 (PDict
    [ ("success", PBool false);
      ("error", PStr "Prompt generator not initialized. Check your API key.") ]).

(** The status code of the handler's answer. *)
Definition status_of (m : M HttpResponse) : option Z :=
  match outcome m with
  | inr response => Some (status response)
  | inl _ => None
  end.

(** [d.get(k, default)] as a value. *)
Definition field_or (d : list (string * PyVal)) (k : string) (default : PyVal)
  : PyVal :=
  match assoc k d with
  | Some v => v
  | None => default
  end.

(** The generator [PromptGenerator()] builds from the key of the environment. *)
Definition cli_generator (anthropic_Anthropic : string -> Client)
  (key : string) : PromptGenerator :=
  mkPromptGenerator key default_PromptConfig (anthropic_Anthropic key).

(** ** Reading a trace *)

(** The requests sent to the provider, in order. *)
Fixpoint provider_calls (t : Trace) : list ProviderRequest :=
  match t with
  | [] => []
  | ProviderCall req :: t' => req :: provider_calls t'
  | _ :: t' => provider_calls t'
  end.

(** The messages logged at level error, in order. *)
Fixpoint logged_errors (t : Trace) : list string :=
  match t with
  | [] => []
  | LogError msg :: t' => msg :: logged_errors t'
  | _ :: t' => logged_errors t'
  end.

(** The arguments of the calls of [generate_prompt], in order. *)
Fixpoint generate_calls (t : Trace) : list (PyVal * PyVal * PyVal * PyVal) :=
  match t with
  | [] => []
  | GenerateCall u c p i :: t' => (u, c, p, i) :: generate_calls t'
  | _ :: t' => generate_calls t'
  end.

(** The texts of the calls of [print] that write on standard output, in
    order. *)
Fixpoint printed_out (t : Trace) : list string :=
  match t with
  | [] => []
  | Print Stdout text :: t' => text :: printed_out t'
  | _ :: t' => printed_out t'
  end.

(** What the program itself writes on standard error, in order: the
    records of its loggers ([logging.basicConfig(level=logging.INFO)] sends
    them there, and both levels the program uses pass) and the prints with
    [file=sys.stderr].  What the provider's SDK may log is not in the
    trace. *)
Definition to_standard_error (ev : Event) : bool :=
  match ev with
  | LogInfo _ | LogError _ | Print Stderr _ => true
  | _ => false
  end.

Definition standard_error (t : Trace) : list Event := filter to_standard_error t.


(** ** The runs of [generate_prompt] *)

(** Every run of [generate_prompt]: the call, then what the [try] block did,
    then the log record of a failure. *)
Inductive Attempt (str_other : PyVal -> string) (self : PromptGenerator)
  (user_input context prompt_type custom : PyVal) : Trace -> PyVal -> Prop :=
| attempt_unresolved :
    hashable prompt_type = false ->
    Attempt str_other self user_input context prompt_type custom
      [ GenerateCall user_input context prompt_type custom;
        LogError ("Error generating prompt: unhashable type: '"
                    ++ type_name prompt_type ++ "'") ]
      (failure_result
         (TypeError ("unhashable type: '" ++ type_name prompt_type ++ "'")))
| attempt_refused (system_text : string) (e : PyExc) :
    _build_system_prompt str_other prompt_type custom = ret system_text ->
    (client self (request_of self system_text
                    (_build_user_message str_other user_input context)) = inl e \/
     exists r,
       client self (request_of self system_text
                      (_build_user_message str_other user_input context)) = inr r /\
       outcome (first_text r) = inl e) ->
    Attempt str_other self user_input context prompt_type custom
      [ GenerateCall user_input context prompt_type custom;
        ProviderCall (request_of self system_text
                        (_build_user_message str_other user_input context));
        LogError ("Error generating prompt: " ++ exc_str e) ]
      (failure_result e)
| attempt_answered (system_text : string) (r : Response) (text : string) :
    _build_system_prompt str_other prompt_type custom = ret system_text ->
    client self (request_of self system_text
                   (_build_user_message str_other user_input context)) = inr r ->
    first_text r = ret text ->
    Attempt str_other self user_input context prompt_type custom
      [ GenerateCall user_input context prompt_type custom;
        ProviderCall (request_of self system_text
                        (_build_user_message str_other user_input context)) ]
      (success_result self prompt_type r text).

(** ** The constructor *)

(** [Some k] when [k] is a non-empty string. *)
Definition non_empty (o : option string) : option string :=
  match o with
  | Some k => if k =? EmptyString then None else Some k
  | None => None
  end.

(** The key the constructor settles on: the argument when it is a non-empty
    string, otherwise the environment's when that is one. *)
Definition effective_key (api_key env : option string) : option string :=
  match non_empty api_key with
  | Some k => Some k
  | None => non_empty env
  end.

Definition key_required : PyExc :=
  ValueError "Anthropic API key is required. Set ANTHROPIC_API_KEY environment variable or pass api_key parameter.".

(** The generator with another [system_prompt] in its configuration. *)
Definition with_system_prompt (override : option string) (self : PromptGenerator)
  : PromptGenerator :=
  mkPromptGenerator (api_key self)
    (mkPromptConfig (model (config self)) (max_tokens (config self))
       (temperature (config self)) override)
    (client self).

(** ** The interactive loop *)

(** An optional answer as the loop passes it on: null, or a non-empty string. *)
Definition none_or_text (v : PyVal) : bool :=
  match v with
  | PNone => true
  | PStr s => negb (s =? EmptyString)
  | _ => false
  end.

(** The arguments the interactive loop may call [generate_prompt] with. *)
Definition interactive_call (call : PyVal * PyVal * PyVal * PyVal) : bool :=
  match call with
  | (PStr u, c, PStr p, i) =>
      negb (u =? EmptyString) && existsb (String.eqb p) known_categories
      && none_or_text c && none_or_text i
  | _ => false
  end.

(** A line that is an answer and not a word that ends the session. *)
Definition plain_line (ev : InputEvent) : bool :=
  match ev with
  | Line l => negb (is_quit (strip l))
  | KeyboardInterrupt => false
  end.

(** ** The requests the handler passes on *)

(** The generator is initialised and the body is an object with a
    user_input key. *)
Definition reaches_generator (generator : option PromptGenerator)
  (get_json : PyExc + PyVal) : bool :=
  match generator, get_json with
  | Some _, inr (PDict d) =>
      match assoc "user_input" d with Some _ => true | None => false end
  | _, _ => false
  end.

(** [PStr "user_input" == x] *)
Definition is_user_input (x : PyVal) : bool :=
  match x with PStr s => s =? "user_input" | _ => false end.

(** ** The catalog endpoint *)

(** The [value] fields of the answer of [get_prompt_types]. *)
Definition advertised_types : list string :=
  match outcome get_prompt_types with
  | inr (mkHttp _ (PDict [(_, PList entries)])) =>
      flat_map (fun entry =>
                  match entry with
                  | PDict fields =>
                      match assoc "value" fields with
                      | Some (PStr v) => [v]
                      | _ => []
                      end
                  | _ => []
                  end) entries
  | _ => []
  end.

(** * Concrete collaborators, to run the program on examples *)

(** A rendering of the values that are not strings: Python's [str] on
    [None], the booleans and the integers; a float and a container are shown
    by a placeholder. *)
Definition str_simple (v : PyVal) : string :=
  match v with
  | PNone => "None"
  | PBool true => "True"
  | PBool false => "False"
  | PInt z => DecimalString.NilZero.string_of_int (Z.to_int z)
  | PFloat _ => "<float>"
  | PStr s => s
  | PList _ => "[...]"
  | PDict _ => "{...}"
  end.

(** A provider that answers every request with [out]. *)
Definition stub_client (out : PyExc + Response) : Client := fun _ => out.

Definition stub_generator (out : PyExc + Response) : PromptGenerator :=
  mkPromptGenerator "sk-test" default_PromptConfig (stub_client out).

(** The response of the specification's example: ten tokens in, twenty out. *)
Definition story_response : Response :=
  {| content := Some [TextBlock "Write a story..."];
     usage := Some (mkUsage 10 20) |}.

(** An SDK whose client fails every call, and one that answers with the
    story. *)
Definition failing_sdk : string -> Client :=
  fun _ => stub_client (inl (mkExc "APIConnectionError" "Connection error.")).

Definition story_sdk : string -> Client :=
  fun _ => stub_client (inr story_response).

Definition interactive_args : Args := mkArgs None "general" None None false.

Definition single_args : Args :=
  mkArgs (Some "a story about a lighthouse") "creative" None None true.

(** * Facts about strings *)

Section StringFacts.

Lemma append_assoc (a b c : string) : (a ++ b) ++ c = a ++ (b ++ c).
Proof.
  induction a as [|x a IH]; simpl; [reflexivity | now rewrite IH].
Qed.

Lemma append_empty_r (a : string) : a ++ EmptyString = a.
Proof.
  induction a as [|x a IH]; simpl; [reflexivity | now rewrite IH].
Qed.

Lemma length_append (a b : string) :
  String.length (a ++ b) = String.length a + String.length b.
Proof.
  induction a as [|x a IH]; simpl; [reflexivity | now rewrite IH].
Qed.

(** [strip] removes the white space of Unicode too: a no-break space
    (U+00A0, the bytes 194 and 160) before the word and an ideographic space
    (U+3000, the bytes 227, 128 and 128) after it, and a tab. *)
Example strip_unicode_space :
  strip (String (ascii_of_nat 194) (String (ascii_of_nat 160)
           ("quit" ++ String (ascii_of_nat 9)
              (String (ascii_of_nat 227) (String (ascii_of_nat 128)
                 (String (ascii_of_nat 128) EmptyString))))))
  = "quit".
Proof. reflexivity. Qed.

(** White space inside the text stays. *)
Example strip_keeps_inner_space : strip "  a  haiku " = "a  haiku".
Proof. reflexivity. Qed.

Lemma prefix_empty (s : string) : prefix EmptyString s = true.
Proof. destruct s; reflexivity. Qed.

Lemma prefix_append (pat s : string) : prefix pat (pat ++ s) = true.
Proof.
  induction pat as [|x pat IH]; simpl.
  - apply prefix_empty.
  - destruct (ascii_dec x x) as [_|N]; [exact IH | now elim N].
Qed.

Lemma count_cons (pat : string) (c : ascii) (s : string) :
  count_occurrences pat (String c s) =
  (if prefix pat (String c s) then 1 else 0) + count_occurrences pat s.
Proof. reflexivity. Qed.

Lemma first_cons (pat : string) (c : ascii) (s : string) :
  first_occurrence pat (String c s) =
  if prefix pat (String c s) then Some 0
  else option_map S (first_occurrence pat s).
Proof. reflexivity. Qed.

Lemma prefix_head_differs (p0 : ascii) (p : string) (c : ascii) (s : string) :
  Ascii.eqb c p0 = false -> prefix (String p0 p) (String c s) = false.
Proof.
  intros H. simpl. destruct (ascii_dec p0 c) as [E|_]; [|reflexivity].
  subst c. now rewrite Ascii.eqb_refl in H.
Qed.

(** A block in which the first character of the pattern does not occur
    starts no occurrence. *)
Lemma count_skip_block (p0 : ascii) (p a s : string) :
  avoids p0 a = true ->
  count_occurrences (String p0 p) (a ++ s) = count_occurrences (String p0 p) s.
Proof.
  induction a as [|x a IH]; intros H; [reflexivity|].
  simpl in H. apply andb_true_iff in H as [Hx Ha].
  apply negb_true_iff in Hx.
  change (String x a ++ s) with (String x (a ++ s)).
  rewrite count_cons, (prefix_head_differs _ _ _ _ Hx), (IH Ha). reflexivity.
Qed.

Lemma first_skip_block (p0 : ascii) (p a s : string) :
  avoids p0 a = true ->
  first_occurrence (String p0 p) (a ++ s) =
  option_map (Nat.add (String.length a)) (first_occurrence (String p0 p) s).
Proof.
  induction a as [|x a IH]; intros H.
  - simpl. now destruct (first_occurrence (String p0 p) s).
  - simpl in H. apply andb_true_iff in H as [Hx Ha].
    apply negb_true_iff in Hx.
    change (String x a ++ s) with (String x (a ++ s)).
    rewrite first_cons, (prefix_head_differs _ _ _ _ Hx), (IH Ha).
    now destruct (first_occurrence (String p0 p) s).
Qed.

(** A character that does not occur in the pattern is a barrier: an
    occurrence that starts before it ends before it. *)
Lemma prefix_barrier (pat u : string) (x : ascii) (rest : string) :
  avoids x pat = true ->
  prefix pat (u ++ String x rest) = prefix pat u.
Proof.
  revert pat. induction u as [|c u IH]; intros pat H.
  - destruct pat as [|p0 p]; [reflexivity|].
    simpl in H. apply andb_true_iff in H as [Hx _].
    apply negb_true_iff in Hx.
    simpl. destruct (ascii_dec p0 x) as [E|_]; [|reflexivity].
    subst x. now rewrite Ascii.eqb_refl in Hx.
  - destruct pat as [|p0 p]; [reflexivity|].
    simpl in H. apply andb_true_iff in H as [_ Hp].
    simpl. destruct (ascii_dec p0 c); [now apply IH | reflexivity].
Qed.

Lemma count_barrier (p0 : ascii) (p u : string) (x : ascii) (rest : string) :
  avoids x (String p0 p) = true ->
  count_occurrences (String p0 p) (u ++ String x rest) =
  count_occurrences (String p0 p) u + count_occurrences (String p0 p) (String x rest).
Proof.
  intros H. induction u as [|c u IH]; [reflexivity|].
  change (String c u ++ String x rest) with (String c (u ++ String x rest)).
  rewrite (count_cons _ c (u ++ String x rest)), (count_cons _ c u), IH.
  change (String c (u ++ String x rest)) with (String c u ++ String x rest).
  rewrite (prefix_barrier _ _ _ _ H). lia.
Qed.

Lemma first_barrier (p0 : ascii) (p u : string) (x : ascii) (rest : string) :
  avoids x (String p0 p) = true ->
  count_occurrences (String p0 p) u = 0 ->
  first_occurrence (String p0 p) (u ++ String x rest) =
  option_map (Nat.add (String.length u))
    (first_occurrence (String p0 p) (String x rest)).
Proof.
  intros H. induction u as [|c u IH]; intros Hu.
  - simpl append. simpl String.length.
    now destruct (first_occurrence (String p0 p) (String x rest)).
  - rewrite count_cons in Hu.
    change (String c u ++ String x rest) with (String c (u ++ String x rest)).
    rewrite first_cons.
    change (String c (u ++ String x rest)) with (String c u ++ String x rest).
    rewrite (prefix_barrier _ _ _ _ H).
    destruct (prefix (String p0 p) (String c u)); [discriminate|].
    rewrite IH by exact Hu.
    now destruct (first_occurrence (String p0 p) (String x rest)).
Qed.

Lemma ends_with_unfold (s suf : string) :
  ends_with s suf =
  (s =? suf) || match s with
                | EmptyString => false
                | String _ s' => ends_with s' suf
                end.
Proof. destruct s; reflexivity. Qed.

Lemma ends_with_refl (s : string) : ends_with s s = true.
Proof. rewrite ends_with_unfold, String.eqb_refl. reflexivity. Qed.

Lemma ends_with_append (a b : string) : ends_with (a ++ b) b = true.
Proof.
  induction a as [|x a IH].
  - apply ends_with_refl.
  - change (String x a ++ b) with (String x (a ++ b)).
    rewrite ends_with_unfold, IH. apply orb_true_r.
Qed.

Lemma str_contains_false (pat s : string) :
  str_contains pat s = false <-> count_occurrences pat s = 0.
Proof.
  unfold str_contains. rewrite negb_false_iff. apply Nat.eqb_eq.
Qed.

End StringFacts.

(** * Facts about traces *)

Section TraceFacts.

Lemma provider_calls_app (a b : Trace) :
  provider_calls (a ++ b)%list = (provider_calls a ++ provider_calls b)%list.
Proof.
  induction a as [|ev a IH]; [reflexivity|].
  destruct ev; cbn [app provider_calls]; now rewrite IH.
Qed.

Lemma logged_errors_app (a b : Trace) :
  logged_errors (a ++ b)%list = (logged_errors a ++ logged_errors b)%list.
Proof.
  induction a as [|ev a IH]; [reflexivity|].
  destruct ev; cbn [app logged_errors]; now rewrite IH.
Qed.

Lemma generate_calls_app (a b : Trace) :
  generate_calls (a ++ b)%list = (generate_calls a ++ generate_calls b)%list.
Proof.
  induction a as [|ev a IH]; [reflexivity|].
  destruct ev; cbn [app generate_calls]; now rewrite IH.
Qed.


Lemma standard_error_app (a b : Trace) :
  standard_error (a ++ b)%list = (standard_error a ++ standard_error b)%list.
Proof. apply filter_app. Qed.

Lemma trace_of_bind {A B} (m : M A) (f : A -> M B) :
  trace_of (bind m f) =
  (trace_of m ++ match outcome m with
                 | inr a => trace_of (f a)
                 | inl _ => []
                 end)%list.
Proof.
  destruct m as [t [e|a]]; cbn.
  - now rewrite app_nil_r.
  - now destruct (f a).
Qed.

Lemma outcome_bind {A B} (m : M A) (f : A -> M B) :
  outcome (bind m f) =
  match outcome m with
  | inr a => outcome (f a)
  | inl e => inl e
  end.
Proof.
  destruct m as [t [e|a]]; cbn; [reflexivity|]. now destruct (f a).
Qed.

End TraceFacts.

(** * The Template Catalog and the Message Composer *)

Section Catalog.

Variable str_other : PyVal -> string.

Lemma build_system_prompt_general :
  _build_system_prompt str_other (PStr "general") PNone = ret general_prompt.
Proof. reflexivity. Qed.

Lemma build_system_prompt_creative :
  _build_system_prompt str_other (PStr "creative") PNone = ret creative_prompt.
Proof. reflexivity. Qed.

Lemma build_system_prompt_technical :
  _build_system_prompt str_other (PStr "technical") PNone = ret technical_prompt.
Proof. reflexivity. Qed.

Lemma build_system_prompt_image :
  _build_system_prompt str_other (PStr "image") PNone = ret image_prompt.
Proof. reflexivity. Qed.

Lemma build_system_prompt_base (category : string) :
  _build_system_prompt str_other (PStr category) PNone = ret (base_text category).
Proof.
  unfold _build_system_prompt, base_text, dict_get_default.
  change (dict_item base_prompts "general") with (ret general_prompt).
  cbn [bind ret truthy].
  destruct (assoc category base_prompts); reflexivity.
Qed.

Lemma base_text_unknown (category : string) :
  ~ In category known_categories -> base_text category = general_prompt.
Proof.
  intros H. unfold base_text, base_prompts. cbn [assoc].
  destruct (String.eqb_spec "general" category) as [E|_];
    [elim H; subst; simpl; tauto|].
  destruct (String.eqb_spec "creative" category) as [E|_];
    [elim H; subst; simpl; tauto|].
  destruct (String.eqb_spec "technical" category) as [E|_];
    [elim H; subst; simpl; tauto|].
  destruct (String.eqb_spec "image" category) as [E|_];
    [elim H; subst; simpl; tauto|].
  reflexivity.
Qed.

Lemma base_text_distinct (c1 c2 : string) :
  In c1 known_categories -> In c2 known_categories -> c1 <> c2 ->
  base_text c1 <> base_text c2.
Proof.
  unfold known_categories. simpl.
  intros [<-|[<-|[<-|[<-|[]]]]] [<-|[<-|[<-|[<-|[]]]]] N;
    try (now elim N); 
    intros E; apply String.eqb_eq in E; vm_compute in E; discriminate E.
Qed.

Lemma base_text_nonempty (category : string) :
  base_text category <> EmptyString.
Proof.
  unfold base_text.
  destruct (assoc category base_prompts) as [t|] eqn:E; [|discriminate].
  unfold base_prompts in E. cbn [assoc] in E.
  repeat match type of E with
         | (if ?b then _ else _) = _ => destruct b
         end;
    try discriminate E; injection E as <-; discriminate.
Qed.

(** C3.  With no custom instructions, each of the four known categories
    resolves to a non-empty base text, two different known categories resolve
    to different texts, and every category string outside the four resolves
    to exactly the text of "general"; the resolution never raises. *)
Theorem catalog_resolution (category : string) :
  (exists text,
     _build_system_prompt str_other (PStr category) PNone = ret text /\
     text <> EmptyString) /\
  (forall other text text',
     In category known_categories -> In other known_categories ->
     category <> other ->
     _build_system_prompt str_other (PStr category) PNone = ret text ->
     _build_system_prompt str_other (PStr other) PNone = ret text' ->
     text <> text') /\
  (~ In category known_categories ->
     _build_system_prompt str_other (PStr category) PNone =
     _build_system_prompt str_other (PStr "general") PNone).
Proof.
  split; [|split].
  - exists (base_text category). split.
    + apply build_system_prompt_base.
    + apply base_text_nonempty.
  - intros other text text' Hc Ho N E1 E2.
    rewrite build_system_prompt_base in E1, E2.
    injection E1 as <-. injection E2 as <-.
    now apply base_text_distinct.
  - intros H. rewrite !build_system_prompt_base.
    now rewrite (base_text_unknown _ H).
Qed.

Lemma build_system_prompt_custom (category custom : string) :
  custom <> EmptyString ->
  _build_system_prompt str_other (PStr category) (PStr custom) =
  ret (base_text category ++ newline ++ newline ++ "Additional instructions: "
         ++ custom).
Proof.
  intros H. apply String.eqb_neq in H.
  unfold _build_system_prompt, base_text, dict_get_default.
  change (dict_item base_prompts "general") with (ret general_prompt).
  cbn [bind ret truthy py_format]. rewrite H.
  destruct (assoc category base_prompts); reflexivity.
Qed.

(** C6.  For every category and every non-empty custom_instructions, the
    system text is the base text of the category (its text in the catalog,
    or the general text when the catalog has none), a blank line, then
    "Additional instructions: " and the custom text verbatim, so it ends with
    "Additional instructions: {custom_instructions}"; with custom_instructions
    empty or absent the system text is that base text unchanged. *)
Theorem custom_instructions_suffix (category custom : string) :
  custom <> EmptyString ->
  let base := match assoc category base_prompts with
              | Some text => text
              | None => general_prompt
              end in
  _build_system_prompt str_other (PStr category) PNone = ret base /\
  _build_system_prompt str_other (PStr category) (PStr EmptyString) = ret base /\
  _build_system_prompt str_other (PStr category) (PStr custom)
    = ret (base ++ newline ++ newline ++ "Additional instructions: " ++ custom) /\
  ends_with (base ++ newline ++ newline ++ "Additional instructions: " ++ custom)
    ("Additional instructions: " ++ custom) = true.
Proof.
  intros H base. fold (base_text category) in base. subst base.
  split; [apply build_system_prompt_base|].
  split; [rewrite <- build_system_prompt_base; reflexivity|].
  split; [now apply build_system_prompt_custom|].
  rewrite <- (append_assoc newline newline).
  rewrite <- (append_assoc (base_text category)).
  apply ends_with_append.
Qed.

(** The message built from two strings, the context not empty. *)
Lemma build_user_message_context (user_input context : string) :
  context <> EmptyString ->
  _build_user_message str_other (PStr user_input) (PStr context) =
  request_line user_input ++ newline ++ newline ++ "Additional context: "
    ++ context.
Proof.
  intros H. apply String.eqb_neq in H.
  unfold _build_user_message. cbn [truthy py_format]. now rewrite H.
Qed.

Lemma build_user_message_no_context (user_input : string) :
  _build_user_message str_other (PStr user_input) PNone = request_line user_input
  /\ _build_user_message str_other (PStr user_input) (PStr EmptyString) =
     request_line user_input.
Proof. split; reflexivity. Qed.

Lemma count_marker_request_line (user_input : string) :
  count_occurrences marker (request_line user_input) =
  count_occurrences marker user_input.
Proof.
  unfold request_line, marker.
  apply count_skip_block. reflexivity.
Qed.

Lemma count_marker_tail (context : string) :
  count_occurrences marker
    (newline ++ newline ++ "Additional context: " ++ context) =
  1 + count_occurrences marker context.
Proof.
  unfold marker.
  change (newline ++ newline ++ "Additional context: " ++ context)
    with ((newline ++ newline) ++ String "A" ("dditional context: " ++ context)).
  rewrite count_skip_block by reflexivity.
  rewrite count_cons.
  change (String "A" ("dditional context: " ++ context))
    with ("Additional context" ++ (": " ++ context)).
  rewrite prefix_append.
  now rewrite (count_skip_block "A" _ "dditional context: " context).
Qed.

(** Occurrences of the marker in a message with a context: those of the
    user input, the one the composer writes, those of the context. *)
Lemma count_marker_message (user_input context : string) :
  context <> EmptyString ->
  count_occurrences marker
    (_build_user_message str_other (PStr user_input) (PStr context)) =
  count_occurrences marker user_input + 1 + count_occurrences marker context.
Proof.
  intros H. rewrite (build_user_message_context _ _ H).
  change (newline ++ newline ++ "Additional context: " ++ context)
    with (String (ascii_of_nat 10)
            (newline ++ "Additional context: " ++ context)).
  unfold marker at 1.
  rewrite count_barrier by reflexivity.
  fold marker.
  rewrite count_marker_request_line.
  change (String (ascii_of_nat 10)
            (newline ++ "Additional context: " ++ context))
    with (newline ++ newline ++ "Additional context: " ++ context).
  rewrite count_marker_tail. lia.
Qed.

Lemma first_marker_message (user_input context : string) :
  context <> EmptyString ->
  count_occurrences marker user_input = 0 ->
  first_occurrence marker
    (_build_user_message str_other (PStr user_input) (PStr context)) =
  Some (String.length (request_line user_input) + 2).
Proof.
  intros H Hu. rewrite (build_user_message_context _ _ H).
  change (newline ++ newline ++ "Additional context: " ++ context)
    with (String (ascii_of_nat 10)
            (newline ++ "Additional context: " ++ context)).
  unfold marker.
  rewrite first_barrier.
  - reflexivity.
  - reflexivity.
  - fold marker. now rewrite count_marker_request_line.
Qed.

(** C5, amended.  For a user_input that does not contain "Additional
    context", the message composed with no context (absent or empty) does not
    contain it; if moreover the context is non-empty and does not contain it,
    the message is the request line followed by the context segment, and it
    contains the substring exactly once, two characters after the end of the
    request line. *)
Theorem compose_marker (user_input context : string) :
  count_occurrences marker user_input = 0 ->
  str_contains marker (_build_user_message str_other (PStr user_input) PNone)
    = false /\
  str_contains marker
    (_build_user_message str_other (PStr user_input) (PStr EmptyString))
    = false /\
  (context <> EmptyString -> count_occurrences marker context = 0 ->
   let message := _build_user_message str_other (PStr user_input) (PStr context) in
   prefix (request_line user_input) message = true /\
   count_occurrences marker message = 1 /\
   first_occurrence marker message =
     Some (String.length (request_line user_input) + 2)).
Proof.
  intros Hu.
  destruct (build_user_message_no_context user_input) as [E1 E2].
  rewrite E1, E2.
  assert (Hline : str_contains marker (request_line user_input) = false).
  { apply str_contains_false. now rewrite count_marker_request_line. }
  split; [exact Hline|]. split; [exact Hline|].
  intros Hc Hctx. cbv zeta. split; [|split].
  - rewrite (build_user_message_context _ _ Hc). apply prefix_append.
  - rewrite (count_marker_message _ _ Hc). lia.
  - now apply first_marker_message.
Qed.

End Catalog.

(** C5 as stated fails: a user_input that itself contains the substring
    makes the message without context contain it, and a context that contains
    it makes the message contain it twice. *)
Lemma compose_marker_counterexample :
  str_contains marker
    (_build_user_message str_simple (PStr "Additional context") PNone) = true /\
  count_occurrences marker
    (_build_user_message str_simple (PStr "a haiku")
       (PStr "Additional context matters")) = 2.
Proof. split; reflexivity. Qed.

Lemma compose_marker_witness :
  count_occurrences marker "a haiku" = 0 /\
  "about autumn" <> EmptyString /\
  count_occurrences marker "about autumn" = 0 /\
  count_occurrences marker
    (_build_user_message str_simple (PStr "a haiku") (PStr "about autumn")) = 1.
Proof.
  assert (Hu : count_occurrences marker "a haiku" = 0) by reflexivity.
  assert (Hc : "about autumn" <> EmptyString) by discriminate.
  assert (Hx : count_occurrences marker "about autumn" = 0) by reflexivity.
  split; [exact Hu|]. split; [exact Hc|]. split; [exact Hx|].
  exact (proj1 (proj2 (proj2 (proj2
    (compose_marker str_simple "a haiku" "about autumn" Hu)) Hc Hx))).
Defined.

Lemma catalog_resolution_witness :
  (In "creative" known_categories /\ In "image" known_categories /\
   "creative" <> "image" /\ creative_prompt <> image_prompt) /\
  (~ In "poetry" known_categories /\
   _build_system_prompt str_simple (PStr "poetry") PNone =
   _build_system_prompt str_simple (PStr "general") PNone).
Proof.
  assert (Hc : In "creative" known_categories) by (simpl; tauto).
  assert (Hi : In "image" known_categories) by (simpl; tauto).
  assert (N : "creative" <> "image") by discriminate.
  assert (H : ~ In "poetry" known_categories).
  { simpl. intros [E|[E|[E|[E|[]]]]]; discriminate E. }
  split.
  - split; [exact Hc|]. split; [exact Hi|]. split; [exact N|].
    exact (proj1 (proj2 (catalog_resolution str_simple "creative"))
             "image" creative_prompt image_prompt Hc Hi N eq_refl eq_refl).
  - split; [exact H|].
    exact (proj2 (proj2 (catalog_resolution str_simple "poetry")) H).
Defined.

Lemma custom_instructions_suffix_witness :
  "Be brief" <> EmptyString /\
  _build_system_prompt str_simple (PStr "image") PNone = ret image_prompt /\
  _build_system_prompt str_simple (PStr "image") (PStr EmptyString)
    = ret image_prompt /\
  _build_system_prompt str_simple (PStr "image") (PStr "Be brief")
    = ret (image_prompt ++ newline ++ newline ++ "Additional instructions: "
             ++ "Be brief") /\
  ends_with (image_prompt ++ newline ++ newline ++ "Additional instructions: "
               ++ "Be brief")
    ("Additional instructions: " ++ "Be brief") = true.
Proof.
  assert (H : "Be brief" <> EmptyString) by discriminate.
  split; [exact H|].
  exact (custom_instructions_suffix str_simple "image" "Be brief" H).
Defined.

(** * The Generation Client *)

Section Generation.

Variable str_other : PyVal -> string.

Ltac run := cbn [bind ret raise emit try_except fst snd app lift
                 outcome trace_of messages_create].

Lemma build_system_prompt_silent (prompt_type custom : PyVal) :
  trace_of (_build_system_prompt str_other prompt_type custom) = [].
Proof.
  unfold _build_system_prompt.
  change (dict_item base_prompts "general") with (ret general_prompt).
  run. unfold dict_get_default.
  destruct prompt_type; run;
    try (destruct (assoc _ base_prompts)); run;
    try (destruct (truthy custom)); reflexivity.
Qed.

Lemma build_system_prompt_hashable (prompt_type custom : PyVal) :
  hashable prompt_type = true ->
  exists text, _build_system_prompt str_other prompt_type custom = ret text.
Proof.
  intros H. unfold _build_system_prompt.
  change (dict_item base_prompts "general") with (ret general_prompt).
  run. unfold dict_get_default.
  destruct prompt_type; try discriminate H; run;
    try (destruct (assoc _ base_prompts)); run;
    destruct (truthy custom); eexists; reflexivity.
Qed.

Lemma build_system_prompt_unhashable (prompt_type custom : PyVal) :
  hashable prompt_type = false ->
  _build_system_prompt str_other prompt_type custom =
  raise (TypeError ("unhashable type: '" ++ type_name prompt_type ++ "'")).
Proof.
  intros H. destruct prompt_type; try discriminate H; reflexivity.
Qed.

(** What the [try] block does once the system text is resolved. *)
Lemma generate_prompt_try_resolved (self : PromptGenerator)
  (user_input context prompt_type custom : PyVal) (system_text : string) :
  _build_system_prompt str_other prompt_type custom = ret system_text ->
  generate_prompt_try str_other self user_input context prompt_type custom =
  let req := request_of self system_text
               (_build_user_message str_other user_input context) in
  match client self req with
  | inl e => ([ProviderCall req], inl e)
  | inr r =>
      match first_text r with
      | (_, inl e) => ([ProviderCall req], inl e)
      | (_, inr text) =>
          ([ProviderCall req], inr (success_result self prompt_type r text))
      end
  end.
Proof.
  intros H. unfold generate_prompt_try. rewrite H. run.
  fold (request_of self system_text
          (_build_user_message str_other user_input context)).
  cbv zeta.
  destruct (client self _) as [e|r]; run; [reflexivity|].
  unfold first_text.
  destruct (content r) as [[|b bs]|]; run; try reflexivity.
  destruct b; reflexivity.
Qed.

(** The [try] block either raises or yields a Success dictionary. *)
Lemma generate_prompt_try_value (self : PromptGenerator)
  (user_input context prompt_type custom : PyVal) (t : Trace) (v : PyVal) :
  generate_prompt_try str_other self user_input context prompt_type custom
    = (t, inr v) ->
  exists r text, v = success_result self prompt_type r text.
Proof.
  destruct (hashable prompt_type) eqn:Hh.
  - destruct (build_system_prompt_hashable prompt_type custom Hh) as [sys E].
    rewrite (generate_prompt_try_resolved _ _ _ _ _ _ E). cbv zeta.
    destruct (client self _) as [e|r]; [discriminate|].
    destruct (first_text r) as [t' [e|text]]; [discriminate|].
    intros [= _ <-]. now exists r, text.
  - unfold generate_prompt_try.
    rewrite (build_system_prompt_unhashable _ _ Hh). discriminate.
Qed.

Lemma generate_prompt_unfold (self : PromptGenerator)
  (user_input context prompt_type custom : PyVal) :
  generate_prompt str_other self user_input context prompt_type custom =
  match generate_prompt_try str_other self user_input context prompt_type custom
  with
  | (t, inl e) =>
      (GenerateCall user_input context prompt_type custom
         :: (t ++ [LogError ("Error generating prompt: " ++ exc_str e)])%list,
       inr (failure_result e))
  | (t, inr v) =>
      (GenerateCall user_input context prompt_type custom :: t, inr v)
  end.
Proof.
  unfold generate_prompt.
  destruct (generate_prompt_try _ _ _ _ _ _) as [t [e|v]]; reflexivity.
Qed.

(** [generate_prompt] never raises: it always returns a dictionary. *)
Lemma generate_prompt_never_raises (self : PromptGenerator)
  (user_input context prompt_type custom : PyVal) :
  exists t fields,
    generate_prompt str_other self user_input context prompt_type custom
      = (t, inr (PDict fields)).
Proof.
  rewrite generate_prompt_unfold.
  destruct (generate_prompt_try _ _ _ _ _ _) as [t [e|v]] eqn:E.
  - eexists. eexists. reflexivity.
  - destruct (generate_prompt_try_value _ _ _ _ _ _ _ E) as [r [text ->]].
    eexists. eexists. reflexivity.
Qed.

(** The [except] path: the error of the [try] block becomes a Failure. *)
Lemma generate_prompt_except_path (self : PromptGenerator)
  (user_input context prompt_type custom : PyVal) (t : Trace) (e : PyExc) :
  generate_prompt_try str_other self user_input context prompt_type custom
    = (t, inl e) ->
  generate_prompt str_other self user_input context prompt_type custom
    = (GenerateCall user_input context prompt_type custom
         :: (t ++ [LogError ("Error generating prompt: " ++ exc_str e)])%list,
       inr (failure_result e)).
Proof.
  intros H. rewrite generate_prompt_unfold, H. reflexivity.
Qed.

(** The steps of the [try] block that can raise, and no other. *)
Lemma generate_prompt_try_raises (self : PromptGenerator)
  (user_input context prompt_type custom : PyVal) (t : Trace) (e : PyExc) :
  generate_prompt_try str_other self user_input context prompt_type custom
    = (t, inl e) <->
  (_build_system_prompt str_other prompt_type custom = raise e /\ t = []) \/
  (exists system_text,
     _build_system_prompt str_other prompt_type custom = ret system_text /\
     let req := request_of self system_text
                  (_build_user_message str_other user_input context) in
     t = [ProviderCall req] /\
     (client self req = inl e \/
      exists r, client self req = inr r /\ outcome (first_text r) = inl e)).
Proof.
  destruct (hashable prompt_type) eqn:Hh.
  - destruct (build_system_prompt_hashable prompt_type custom Hh)
      as [sys E].
    rewrite (generate_prompt_try_resolved _ _ _ _ _ _ E), E. cbv zeta.
    split.
    + intros H. right. exists sys. split; [reflexivity|].
      destruct (client self _) as [e'|r].
      * injection H as <- <-. split; [reflexivity|]. now left.
      * destruct (first_text r) as [t' [e'|text]] eqn:F; [|discriminate].
        injection H as <- <-. split; [reflexivity|]. right.
        exists r. split; [reflexivity|]. now rewrite F.
    + intros [[H _]|[sys' [H [-> Hc]]]]; [discriminate|].
      injection H as <-.
      destruct Hc as [Hc|[r [Hc F]]]; rewrite Hc; [reflexivity|].
      destruct (first_text r) as [t' [e'|text]]; [|discriminate].
      cbn in F. now injection F as <-.
  - unfold generate_prompt_try.
    rewrite (build_system_prompt_unhashable _ _ Hh). run.
    split.
    + intros [= <- <-]. now left.
    + intros [[H ->]|[sys [H _]]]; [|discriminate].
      now injection H as <-.
Qed.

(** C1, amended.  When a step of [generate_prompt] raises an error [e]
    (template resolution, the provider call, or response extraction;
    composing the message cannot raise), [generate_prompt] does not raise:
    after the steps done so far (nothing, or the one provider call) it logs
    one error record, "Error generating prompt: " and [str(e)], and returns
    the Failure dictionary, with success = false, prompt and metadata null,
    and as error message [str(e)], the text of the raised error, whatever
    that text is. *)
Theorem generate_prompt_recovers (self : PromptGenerator)
  (user_input context prompt_type custom : PyVal) (e : PyExc) :
  outcome (_build_system_prompt str_other prompt_type custom) = inl e \/
  (exists system_text,
     _build_system_prompt str_other prompt_type custom = ret system_text /\
     let req := request_of self system_text
                  (_build_user_message str_other user_input context) in
     (client self req = inl e \/
      exists r, client self req = inr r /\ outcome (first_text r) = inl e)) ->
  exists steps,
    (steps = [] \/ exists req, steps = [ProviderCall req]) /\
    generate_prompt str_other self user_input context prompt_type custom
    = (GenerateCall user_input context prompt_type custom
         :: (steps ++ [LogError ("Error generating prompt: " ++ exc_str e)])%list,
       inr (PDict
         [ ("success", PBool false);
           ("error", PStr (exc_str e));
           ("prompt", PNone);
           ("metadata", PNone) ])).
Proof.
  intros H.
  assert (T : exists t,
    (t = [] \/ exists req, t = [ProviderCall req]) /\
    generate_prompt_try str_other self user_input context prompt_type custom
      = (t, inl e)).
  { destruct H as [H|[sys [Hs Hc]]].
    - exists []. split; [now left|].
      apply generate_prompt_try_raises. left.
      pose proof (build_system_prompt_silent prompt_type custom) as S.
      destruct (_build_system_prompt str_other prompt_type custom) as [t o].
      cbn in H, S. subst. now split.
    - eexists. split; [right; eexists; reflexivity|].
      apply generate_prompt_try_raises. right.
      exists sys. split; [exact Hs|]. cbv zeta. split; [reflexivity|].
      exact Hc. }
  destruct T as [t [Ht T]].
  exists t. split; [exact Ht|].
  exact (generate_prompt_except_path _ _ _ _ _ _ _ T).
Qed.

(** The errors the program's own steps raise carry a text. *)
Lemma own_errors_have_text (prompt_type custom : PyVal) (r : Response)
  (e : PyExc) :
  outcome (_build_system_prompt str_other prompt_type custom) = inl e \/
  outcome (first_text r) = inl e ->
  exc_str e <> EmptyString.
Proof.
  intros [H|H].
  - destruct (hashable prompt_type) eqn:Hh.
    + destruct (build_system_prompt_hashable prompt_type custom Hh)
        as [sys E].
      rewrite E in H. discriminate.
    + rewrite (build_system_prompt_unhashable _ _ Hh) in H.
      injection H as <-. discriminate.
  - unfold first_text in H.
    destruct (content r) as [[|b bs]|]; try discriminate.
    destruct b; [discriminate|]. injection H as <-. discriminate.
Qed.

(** C2.  When the provider answers and the text is extracted, the result is
    a Success whose metadata reports, for a response with a usage field, the
    provider's input_tokens and output_tokens and their exact sum as
    tokens_used, and for a response without a usage field null (not zero)
    in all three. *)
Theorem usage_metadata (self : PromptGenerator)
  (user_input context prompt_type custom : PyVal)
  (system_text : string) (r : Response) (text : string) :
  _build_system_prompt str_other prompt_type custom = ret system_text ->
  client self (request_of self system_text
                 (_build_user_message str_other user_input context)) = inr r ->
  first_text r = ret text ->
  exists metadata,
    outcome (generate_prompt str_other self user_input context prompt_type custom)
      = inr (PDict [ ("success", PBool true);
                     ("prompt", PStr text);
                     ("metadata", PDict metadata) ]) /\
    match usage r with
    | Some u =>
        assoc "input_tokens" metadata = Some (PInt (input_tokens u)) /\
        assoc "output_tokens" metadata = Some (PInt (output_tokens u)) /\
        assoc "tokens_used" metadata =
          Some (PInt (input_tokens u + output_tokens u))
    | None =>
        assoc "input_tokens" metadata = Some PNone /\
        assoc "output_tokens" metadata = Some PNone /\
        assoc "tokens_used" metadata = Some PNone
    end.
Proof.
  intros Hs Hc Hf.
  eexists. split.
  - rewrite generate_prompt_unfold,
      (generate_prompt_try_resolved _ _ _ _ _ _ Hs).
    cbv zeta. rewrite Hc, Hf. reflexivity.
  - unfold usage_field. destruct (usage r); repeat split; reflexivity.
Qed.

(** C8.  When the provider answers with content that is absent or empty,
    the result is a Success whose prompt is the empty string. *)
Theorem empty_content_is_success (self : PromptGenerator)
  (user_input context prompt_type custom : PyVal)
  (system_text : string) (r : Response) :
  _build_system_prompt str_other prompt_type custom = ret system_text ->
  client self (request_of self system_text
                 (_build_user_message str_other user_input context)) = inr r ->
  content r = None \/ content r = Some [] ->
  exists metadata,
    outcome (generate_prompt str_other self user_input context prompt_type custom)
      = inr (PDict [ ("success", PBool true);
                     ("prompt", PStr EmptyString);
                     ("metadata", PDict metadata) ]).
Proof.
  intros Hs Hc He.
  assert (Hf : first_text r = ret EmptyString).
  { unfold first_text. destruct He as [-> | ->]; reflexivity. }
  eexists.
  rewrite generate_prompt_unfold,
    (generate_prompt_try_resolved _ _ _ _ _ _ Hs).
  cbv zeta. rewrite Hc, Hf. reflexivity.
Qed.

(** C7, amended.  Every result of [generate_prompt] is a dictionary of one of
    two shapes: a Success, with success = true, a prompt text, a metadata
    dictionary and no error; or a Failure, with success = false, an error
    message, and prompt and metadata null.  [analyze_image_for_prompt]
    always returns success = false with an error message and a null prompt,
    and a metadata dictionary that holds the analysis type. *)
Theorem result_variants (self : PromptGenerator)
  (user_input context prompt_type custom : PyVal)
  (image_path analysis_type : string) :
  (exists t fields,
     generate_prompt str_other self user_input context prompt_type custom
       = (t, inr (PDict fields)) /\
     ((assoc "success" fields = Some (PBool true) /\
       (exists text, assoc "prompt" fields = Some (PStr text)) /\
       (exists metadata, assoc "metadata" fields = Some (PDict metadata)) /\
       assoc "error" fields = None)
      \/
      (assoc "success" fields = Some (PBool false) /\
       (exists message, assoc "error" fields = Some (PStr message)) /\
       assoc "prompt" fields = Some PNone /\
       assoc "metadata" fields = Some PNone))) /\
  (exists fields,
     analyze_image_for_prompt self image_path analysis_type = PDict fields /\
     assoc "success" fields = Some (PBool false) /\
     assoc "error" fields = Some (PStr "Image analysis not yet implemented") /\
     assoc "prompt" fields = Some PNone /\
     assoc "metadata" fields =
       Some (PDict [("analysis_type", PStr analysis_type)])).
Proof.
  split.
  - rewrite generate_prompt_unfold.
    destruct (generate_prompt_try _ _ _ _ _ _) as [t [e|v]] eqn:E.
    + eexists. eexists. split; [reflexivity|]. right.
      repeat split; try reflexivity. now exists (exc_str e).
    + destruct (generate_prompt_try_value _ _ _ _ _ _ _ E) as [r [text ->]].
      eexists. eexists. split; [reflexivity|]. left.
      repeat split; try reflexivity; eexists; reflexivity.
  - eexists. split; [reflexivity|]. repeat split.
Qed.

End Generation.

(** C1 as stated fails: a provider error whose text is empty (a bare
    [MemoryError()], a failed bare [assert]) gives a Failure whose error
    message is the empty string. *)
Lemma generate_prompt_recovers_counterexample :
  client (stub_generator (inl (mkExc "MemoryError" EmptyString)))
    (request_of (stub_generator (inl (mkExc "MemoryError" EmptyString)))
       general_prompt
       (_build_user_message str_simple (PStr "a haiku") PNone))
    = inl (mkExc "MemoryError" EmptyString) /\
  outcome (generate_prompt str_simple
             (stub_generator (inl (mkExc "MemoryError" EmptyString)))
             (PStr "a haiku") PNone (PStr "general") PNone)
    = inr (PDict
        [ ("success", PBool false);
          ("error", PStr EmptyString);
          ("prompt", PNone);
          ("metadata", PNone) ]).
Proof. split; reflexivity. Qed.

Lemma generate_prompt_recovers_witness :
  _build_system_prompt str_simple (PStr "creative") PNone = ret creative_prompt /\
  client (stub_generator (inl (mkExc "APIConnectionError" "Connection error.")))
    (request_of
       (stub_generator (inl (mkExc "APIConnectionError" "Connection error.")))
       creative_prompt
       (_build_user_message str_simple (PStr "a haiku") PNone))
    = inl (mkExc "APIConnectionError" "Connection error.") /\
  exists steps,
    (steps = [] \/ exists req, steps = [ProviderCall req]) /\
    generate_prompt str_simple
      (stub_generator (inl (mkExc "APIConnectionError" "Connection error.")))
      (PStr "a haiku") PNone (PStr "creative") PNone
    = (GenerateCall (PStr "a haiku") PNone (PStr "creative") PNone
         :: (steps ++ [LogError ("Error generating prompt: " ++ "Connection error.")])%list,
       inr (PDict
         [ ("success", PBool false);
           ("error", PStr "Connection error.");
           ("prompt", PNone);
           ("metadata", PNone) ])).
Proof.
  assert (Hs : _build_system_prompt str_simple (PStr "creative") PNone
               = ret creative_prompt) by reflexivity.
  assert (Hc : client
    (stub_generator (inl (mkExc "APIConnectionError" "Connection error.")))
    (request_of
       (stub_generator (inl (mkExc "APIConnectionError" "Connection error.")))
       creative_prompt
       (_build_user_message str_simple (PStr "a haiku") PNone))
    = inl (mkExc "APIConnectionError" "Connection error.")) by reflexivity.
  split; [exact Hs|]. split; [exact Hc|].
  exact (generate_prompt_recovers str_simple
           (stub_generator (inl (mkExc "APIConnectionError" "Connection error.")))
           (PStr "a haiku") PNone (PStr "creative") PNone
           (mkExc "APIConnectionError" "Connection error.")
           (or_intror (ex_intro _ creative_prompt (conj Hs (or_introl Hc))))).
Defined.

Lemma usage_metadata_witness :
  _build_system_prompt str_simple (PStr "creative") PNone = ret creative_prompt /\
  client (stub_generator (inr story_response))
    (request_of (stub_generator (inr story_response)) creative_prompt
       (_build_user_message str_simple (PStr "a story about a lighthouse") PNone))
    = inr story_response /\
  first_text story_response = ret "Write a story..." /\
  exists metadata,
    outcome (generate_prompt str_simple (stub_generator (inr story_response))
               (PStr "a story about a lighthouse") PNone (PStr "creative") PNone)
      = inr (PDict [ ("success", PBool true);
                     ("prompt", PStr "Write a story...");
                     ("metadata", PDict metadata) ]) /\
    assoc "input_tokens" metadata = Some (PInt 10) /\
    assoc "output_tokens" metadata = Some (PInt 20) /\
    assoc "tokens_used" metadata = Some (PInt 30).
Proof.
  assert (Hs : _build_system_prompt str_simple (PStr "creative") PNone
               = ret creative_prompt) by reflexivity.
  assert (Hc : client (stub_generator (inr story_response))
    (request_of (stub_generator (inr story_response)) creative_prompt
       (_build_user_message str_simple (PStr "a story about a lighthouse") PNone))
    = inr story_response) by reflexivity.
  assert (Hf : first_text story_response = ret "Write a story...")
    by reflexivity.
  split; [exact Hs|]. split; [exact Hc|]. split; [exact Hf|].
  destruct (usage_metadata str_simple _ _ _ _ _ _ _ _ Hs Hc Hf)
    as [metadata [E U]].
  exists metadata. split; [exact E|]. exact U.
Defined.

Lemma empty_content_is_success_witness :
  _build_system_prompt str_simple (PStr "general") PNone = ret general_prompt /\
  client (stub_generator (inr (mkResponse (Some []) None)))
    (request_of (stub_generator (inr (mkResponse (Some []) None))) general_prompt
       (_build_user_message str_simple (PStr "a haiku") PNone))
    = inr (mkResponse (Some []) None) /\
  (content (mkResponse (Some []) None) = None \/
   content (mkResponse (Some []) None) = Some []) /\
  exists metadata,
    outcome (generate_prompt str_simple
               (stub_generator (inr (mkResponse (Some []) None)))
               (PStr "a haiku") PNone (PStr "general") PNone)
      = inr (PDict [ ("success", PBool true);
                     ("prompt", PStr EmptyString);
                     ("metadata", PDict metadata) ]).
Proof.
  assert (Hs : _build_system_prompt str_simple (PStr "general") PNone
               = ret general_prompt) by reflexivity.
  assert (Hc : client (stub_generator (inr (mkResponse (Some []) None)))
    (request_of (stub_generator (inr (mkResponse (Some []) None))) general_prompt
       (_build_user_message str_simple (PStr "a haiku") PNone))
    = inr (mkResponse (Some []) None)) by reflexivity.
  assert (He : content (mkResponse (Some []) None) = None \/
               content (mkResponse (Some []) None) = Some [])
    by (right; reflexivity).
  split; [exact Hs|]. split; [exact Hc|]. split; [exact He|].
  exact (empty_content_is_success str_simple _ _ _ _ _ _ _ Hs Hc He).
Defined.

(** C7 as stated fails: [analyze_image_for_prompt] returns a Failure whose
    metadata is populated. *)
Lemma result_variants_counterexample :
  exists fields,
    analyze_image_for_prompt (stub_generator (inr story_response))
      "lighthouse.png" "detailed" = PDict fields /\
    assoc "success" fields = Some (PBool false) /\
    assoc "metadata" fields = Some (PDict [("analysis_type", PStr "detailed")]) /\
    assoc "metadata" fields <> Some PNone.
Proof.
  eexists. split; [reflexivity|].
  split; [reflexivity|]. split; [reflexivity|]. discriminate.
Qed.

(** * The web handler *)

Section WebHandler.

Variable str_other : PyVal -> string.

(** C4, amended.  For every JSON body in which the user_input key is missing
    (null, or an object without the key, the empty object included) the
    handler invokes nothing, neither the Generation Client nor the provider:
    with the generator initialised it answers 400 with success = false and
    error "Missing required field: user_input"; with the generator not
    initialised it answers 500 with "Prompt generator not initialized. Check
    your API key." *)
Theorem missing_user_input_rejected (generator : option PromptGenerator)
  (data : PyVal) :
  lacks_user_input data = true ->
  generate_prompt_api str_other generator (inr data) =
  ret (match generator with
       | Some _ => missing_field_response
       | None => not_initialized_response
       end).
Proof.
  intros H. destruct generator as [g|]; [|reflexivity].
  unfold generate_prompt_api, generate_prompt_api_try.
  destruct data as [| | | | | |d]; try discriminate H; [reflexivity|].
  unfold lacks_user_input in H.
  destruct d as [|kv d]; [reflexivity|].
  cbn [lift bind ret truthy negb py_in].
  destruct (assoc "user_input" (kv :: d)); [discriminate H|reflexivity].
Qed.

(** What the handler does with a body that is an object with a user_input:
    it calls [generate_prompt] on the fields and relays the result. *)
Lemma handler_delegates (g : PromptGenerator) (d : list (string * PyVal))
  (user_input : PyVal) :
  assoc "user_input" d = Some user_input ->
  generate_prompt_api str_other (Some g) (inr (PDict d)) =
  (result <- generate_prompt str_other g user_input
               (field_or d "context" PNone)
               (field_or d "prompt_type" (PStr "general"))
               (field_or d "custom_instructions" PNone) ;;
   ret (mkHttp 200 result)).
Proof.
  intros H.
  destruct (generate_prompt_never_raises str_other g user_input
              (field_or d "context" PNone)
              (field_or d "prompt_type" (PStr "general"))
              (field_or d "custom_instructions" PNone)) as [t [fields E]].
  unfold generate_prompt_api, generate_prompt_api_try.
  destruct d as [|kv d]; [discriminate H|].
  cbn [lift bind ret truthy negb py_in py_getitem py_get].
  rewrite H. cbn [bind ret negb app].
  fold (field_or (kv :: d) "context" PNone).
  fold (field_or (kv :: d) "prompt_type" (PStr "general")).
  fold (field_or (kv :: d) "custom_instructions" PNone).
  rewrite E. reflexivity.
Qed.

(** C10, amended.  With the generator initialised, a JSON object whose
    user_input is the empty string is not rejected: the handler calls
    [generate_prompt] with the empty user_input and the other fields of the body,
    and answers 200 with its result.  Whenever the prompt_type of the body is
    hashable (absent, a string, a number, a boolean or null) a provider call
    is attempted, its user message composed from the empty user_input. *)
Theorem empty_user_input_accepted (g : PromptGenerator)
  (d : list (string * PyVal)) :
  assoc "user_input" d = Some (PStr EmptyString) ->
  let context := field_or d "context" PNone in
  let prompt_type := field_or d "prompt_type" (PStr "general") in
  let custom := field_or d "custom_instructions" PNone in
  exists t result,
    generate_prompt str_other g (PStr EmptyString) context prompt_type custom
      = (GenerateCall (PStr EmptyString) context prompt_type custom :: t,
         inr result) /\
    generate_prompt_api str_other (Some g) (inr (PDict d))
      = (GenerateCall (PStr EmptyString) context prompt_type custom :: t,
         inr (mkHttp 200 result)) /\
    (hashable prompt_type = true ->
     exists system_text t',
       _build_system_prompt str_other prompt_type custom = ret system_text /\
       t = ProviderCall
             (request_of g system_text
                (_build_user_message str_other (PStr EmptyString) context))
           :: t').
Proof.
  intros H context prompt_type custom.
  rewrite (handler_delegates _ _ _ H).
  fold context prompt_type custom.
  rewrite generate_prompt_unfold.
  destruct (generate_prompt_try str_other g (PStr EmptyString) context
              prompt_type custom) as [t [e|v]] eqn:E.
  - eexists. eexists. split; [reflexivity|]. split.
    + cbn [bind ret]. now rewrite app_nil_r.
    + intros Hh.
      destruct (build_system_prompt_hashable str_other prompt_type custom Hh)
        as [sys Hs].
      exists sys. rewrite (generate_prompt_try_resolved _ _ _ _ _ _ _ Hs) in E.
      cbv zeta in E.
      destruct (client g _) as [e'|r].
      * injection E as <- _. eexists. split; [exact Hs|reflexivity].
      * destruct (first_text r) as [t' [e'|text]]; injection E as <- _;
          eexists; (split; [exact Hs|reflexivity]).
  - eexists. eexists. split; [reflexivity|]. split.
    + cbn [bind ret]. now rewrite app_nil_r.
    + intros Hh.
      destruct (build_system_prompt_hashable str_other prompt_type custom Hh)
        as [sys Hs].
      exists sys. rewrite (generate_prompt_try_resolved _ _ _ _ _ _ _ Hs) in E.
      cbv zeta in E.
      destruct (client g _) as [e'|r]; [discriminate E|].
      destruct (first_text r) as [t' [e'|text]]; [discriminate E|].
      injection E as <- _. eexists. split; [exact Hs|reflexivity].
Qed.

End WebHandler.

(** C4 as stated fails: with the generator not initialised, the empty object
    is answered 500, not 400. *)
Lemma missing_user_input_rejected_counterexample :
  lacks_user_input (PDict []) = true /\
  generate_prompt_api str_simple None (inr (PDict [])) =
    ret (mkHttp 500 (PDict
      [ ("success", PBool false);
        ("error", PStr "Prompt generator not initialized. Check your API key.") ]))
  /\ status not_initialized_response <> 400%Z.
Proof. split; [reflexivity|]. split; [reflexivity|]. discriminate. Qed.

Lemma missing_user_input_rejected_witness :
  lacks_user_input (PDict [("context", PStr "for children")]) = true /\
  generate_prompt_api str_simple (Some (stub_generator (inr story_response)))
    (inr (PDict [("context", PStr "for children")]))
  = ret (mkHttp 400 (PDict
      [ ("success", PBool false);
        ("error", PStr "Missing required field: user_input") ])).
Proof.
  assert (H : lacks_user_input (PDict [("context", PStr "for children")]) = true)
    by reflexivity.
  split; [exact H|].
  exact (missing_user_input_rejected str_simple
           (Some (stub_generator (inr story_response))) _ H).
Defined.

(** C10 as stated fails twice: with the generator not initialised the handler
    answers 500 and calls nothing; with a prompt_type that cannot be hashed
    (a JSON array) [generate_prompt] is called with the empty user_input but fails
    in template resolution, before any provider call. *)
Lemma empty_user_input_accepted_counterexample :
  (generate_prompt_api str_simple None
     (inr (PDict [("user_input", PStr EmptyString)]))
   = ([], inr not_initialized_response)) /\
  (exists t result,
     generate_prompt_api str_simple (Some (stub_generator (inr story_response)))
       (inr (PDict [ ("user_input", PStr EmptyString);
                     ("prompt_type", PList []) ]))
     = (t, inr (mkHttp 200 result)) /\
     is_success result = false /\
     existsb is_generate_call t = true /\
     existsb is_provider_call t = false).
Proof.
  split; [reflexivity|].
  eexists. eexists. split; [reflexivity|].
  split; [reflexivity|]. split; reflexivity.
Qed.

Lemma empty_user_input_accepted_witness :
  assoc "user_input" [("user_input", PStr EmptyString)]
    = Some (PStr EmptyString) /\
  exists t result,
    generate_prompt str_simple (stub_generator (inr story_response))
      (PStr EmptyString) PNone (PStr "general") PNone
      = (GenerateCall (PStr EmptyString) PNone (PStr "general") PNone :: t,
         inr result) /\
    generate_prompt_api str_simple (Some (stub_generator (inr story_response)))
      (inr (PDict [("user_input", PStr EmptyString)]))
      = (GenerateCall (PStr EmptyString) PNone (PStr "general") PNone :: t,
         inr (mkHttp 200 result)) /\
    (hashable (PStr "general") = true ->
     exists system_text t',
       _build_system_prompt str_simple (PStr "general") PNone = ret system_text /\
       t = ProviderCall
             (request_of (stub_generator (inr story_response)) system_text
                (_build_user_message str_simple (PStr EmptyString) PNone))
           :: t').
Proof.
  assert (H : assoc "user_input" [("user_input", PStr EmptyString)]
              = Some (PStr EmptyString)) by reflexivity.
  split; [exact H|].
  exact (empty_user_input_accepted str_simple
           (stub_generator (inr story_response))
           [("user_input", PStr EmptyString)] H).
Defined.

(** Bodies that are not objects: a truthy number makes the membership test
    raise, which the handler answers with 500; a list without the string is
    answered 400 like an object without the key. *)
Example scalar_body_is_internal_error :
  status_of (generate_prompt_api str_simple
               (Some (stub_generator (inr story_response))) (inr (PInt 5)))
    = Some 500%Z /\
  outcome (generate_prompt_api str_simple
             (Some (stub_generator (inr story_response)))
             (inr (PList [PStr "context"])))
    = inr missing_field_response.
Proof. split; reflexivity. Qed.

(** The end-to-end scenario of the specification: a creative request against a
    provider that answers "Write a story..." with usage 5 in, 50 out. *)
Example end_to_end_story :
  outcome
    (generate_prompt_api str_simple
       (Some (stub_generator
                (inr (mkResponse (Some [TextBlock "Write a story..."])
                        (Some (mkUsage 5 50))))))
       (inr (PDict [ ("user_input", PStr "a story about a lighthouse");
                     ("prompt_type", PStr "creative") ])))
  = inr (mkHttp 200 (PDict
      [ ("success", PBool true);
        ("prompt", PStr "Write a story...");
        ("metadata", PDict
          [ ("model", PStr "claude-3-5-sonnet-20241022");
            ("prompt_type", PStr "creative");
            ("tokens_used", PInt 55);
            ("input_tokens", PInt 5);
            ("output_tokens", PInt 50) ]) ])).
Proof. reflexivity. Qed.

(** * The command line *)

Section CommandLine.

Variable str_other : PyVal -> string.
Variable anthropic_Anthropic : string -> Client.
Variable getenv_ANTHROPIC_API_KEY : option string.

Local Abbreviation init :=
  (PromptGenerator_init anthropic_Anthropic getenv_ANTHROPIC_API_KEY None None).
Local Abbreviation cli_main :=
  (main str_other anthropic_Anthropic getenv_ANTHROPIC_API_KEY).

Lemma init_with_key (key : string) :
  getenv_ANTHROPIC_API_KEY = Some key -> key <> EmptyString ->
  init = ([LogInfo ("PromptGenerator initialized with model: "
                      ++ model default_PromptConfig)],
          inr (cli_generator anthropic_Anthropic key)).
Proof.
  intros E N. apply String.eqb_neq in N.
  unfold PromptGenerator_init. rewrite E. cbn [of_option truthy].
  rewrite N. reflexivity.
Qed.

Lemma truthy_key (key : string) :
  getenv_ANTHROPIC_API_KEY = Some key -> key <> EmptyString ->
  truthy (of_option getenv_ANTHROPIC_API_KEY) = true.
Proof.
  intros -> N. apply String.eqb_neq in N. cbn. now rewrite N.
Qed.

Lemma outcome_seq {A} (m : M unit) (k : M A) :
  outcome m = inr tt -> outcome (m ;; k) = outcome k.
Proof.
  destruct m as [t [e|[]]]; [discriminate|]. intros _.
  destruct k as [t' r]. reflexivity.
Qed.

Lemma outcome_guarded (m : M unit) :
  outcome (try_except m unexpected) = inr tt.
Proof. destruct m as [t [e|[]]]; reflexivity. Qed.


Lemma then_loop_some {A} (m : M unit) (k : option (M A)) (run : M A) :
  then_loop m k = Some run -> exists rest, k = Some rest /\ run = (m ;; rest).
Proof.
  unfold then_loop. destruct k as [rest|]; [|discriminate].
  intros H. exists rest. split; [reflexivity|].
  cbn [option_map] in H. now injection H as <-.
Qed.



Lemma init_without_key :
  truthy (of_option getenv_ANTHROPIC_API_KEY) = false ->
  outcome init = inl (ValueError "Anthropic API key is required. Set ANTHROPIC_API_KEY environment variable or pass api_key parameter.").
Proof.
  unfold PromptGenerator_init. cbn [of_option truthy].
  destruct getenv_ANTHROPIC_API_KEY as [k|]; [|reflexivity].
  cbn [of_option truthy]. now intros ->.
Qed.










End CommandLine.



(** * Further properties of the Generation Client *)


Section GenerationMore.

Variable str_other : PyVal -> string.

Lemma first_text_silent (r : Response) (t : Trace) (o : PyExc + string) :
  first_text r = (t, o) -> t = [].
Proof.
  unfold first_text.
  destruct (content r) as [[|[x|cls] bs]|]; intros [= <- _]; reflexivity.
Qed.

Lemma generate_prompt_attempt (self : PromptGenerator)
  (user_input context prompt_type custom : PyVal) :
  exists t result,
    generate_prompt str_other self user_input context prompt_type custom
      = (t, inr result) /\
    Attempt str_other self user_input context prompt_type custom t result.
Proof.
  rewrite generate_prompt_unfold.
  destruct (hashable prompt_type) eqn:Hh.
  - destruct (build_system_prompt_hashable str_other prompt_type custom Hh)
      as [sys Hs].
    rewrite (generate_prompt_try_resolved _ _ _ _ _ _ _ Hs). cbv zeta.
    destruct (client self _) as [e|r] eqn:Hc.
    + eexists. eexists. split; [reflexivity|].
      apply (attempt_refused _ _ _ _ _ _ sys e Hs). now left.
    + destruct (first_text r) as [tf [e|text]] eqn:Hf.
      * eexists. eexists. split; [reflexivity|].
        apply (attempt_refused _ _ _ _ _ _ sys e Hs). right.
        exists r. split; [exact Hc|]. now rewrite Hf.
      * eexists. eexists. split; [reflexivity|].
        apply (attempt_answered _ _ _ _ _ _ sys r text Hs Hc).
        now rewrite Hf, (first_text_silent _ _ _ Hf).
  - unfold generate_prompt_try.
    rewrite (build_system_prompt_unhashable _ _ _ Hh).
    eexists. eexists. split; [reflexivity|].
    now apply attempt_unresolved.
Qed.

Lemma resolved_hashable (prompt_type custom : PyVal) (system_text : string) :
  _build_system_prompt str_other prompt_type custom = ret system_text ->
  hashable prompt_type = true.
Proof.
  intros H. destruct (hashable prompt_type) eqn:Hh; [reflexivity|].
  rewrite (build_system_prompt_unhashable _ _ _ Hh) in H. discriminate H.
Qed.

(** X1.  One call of [generate_prompt] is one attempt: the provider is called
    once when the prompt_type can be hashed and not at all otherwise, never a
    second time after a failure; the request carries the model, the token
    ceiling and the temperature of the configuration and one message, of role
    user, that is the composed user message; an error is logged exactly when
    the result is a Failure. *)
Theorem generate_prompt_single_attempt (self : PromptGenerator)
  (user_input context prompt_type custom : PyVal) :
  exists t result,
    generate_prompt str_other self user_input context prompt_type custom
      = (t, inr result) /\
    generate_calls t = [(user_input, context, prompt_type, custom)] /\
    List.length (provider_calls t) = (if hashable prompt_type then 1 else 0) /\
    Forall (fun req =>
              req_model req = model (config self) /\
              req_max_tokens req = max_tokens (config self) /\
              req_temperature req = temperature (config self) /\
              req_messages req =
                [("user", _build_user_message str_other user_input context)])
           (provider_calls t) /\
    List.length (logged_errors t) = (if is_success result then 0 else 1).
Proof.
  destruct (generate_prompt_attempt self user_input context prompt_type custom)
    as [t [result [E A]]].
  exists t, result. split; [exact E|].
  destruct A as [Hh | sys e Hs Hc | sys r text Hs Hc Hf].
  - rewrite Hh. cbn. repeat split; constructor.
  - rewrite (resolved_hashable _ _ _ Hs). cbn.
    repeat split. constructor; [|constructor]. repeat split.
  - rewrite (resolved_hashable _ _ _ Hs). cbn.
    repeat split. constructor; [|constructor]. repeat split.
Qed.

(** X2.  The [system_prompt] of the configuration is never used: a generator
    whose configuration differs in that field alone does exactly the same,
    the same request to the provider included. *)
Theorem system_prompt_override_ignored (override : option string)
  (self : PromptGenerator) (user_input context prompt_type custom : PyVal) :
  generate_prompt str_other (with_system_prompt override self)
    user_input context prompt_type custom
  = generate_prompt str_other self user_input context prompt_type custom.
Proof.
  destruct self as [key [m mt temp sp] cl]. reflexivity.
Qed.

(** X3.  A category outside the four is sent to the provider with the
    general system text, and yet the metadata of the Success names the
    category as it was given. *)
Theorem unknown_category_echoed (self : PromptGenerator)
  (user_input context : PyVal) (category : string)
  (r : Response) (text : string) :
  ~ In category known_categories ->
  client self (request_of self general_prompt
                 (_build_user_message str_other user_input context)) = inr r ->
  first_text r = ret text ->
  exists t metadata,
    generate_prompt str_other self user_input context (PStr category) PNone
      = (t, inr (PDict [ ("success", PBool true);
                         ("prompt", PStr text);
                         ("metadata", PDict metadata) ])) /\
    map req_system (provider_calls t) = [general_prompt] /\
    assoc "prompt_type" metadata = Some (PStr category).
Proof.
  intros Hk Hc Hf.
  assert (Hs : _build_system_prompt str_other (PStr category) PNone
               = ret general_prompt).
  { rewrite build_system_prompt_base. now rewrite (base_text_unknown _ Hk). }
  rewrite generate_prompt_unfold,
    (generate_prompt_try_resolved _ _ _ _ _ _ _ Hs).
  cbv zeta. rewrite Hc, Hf.
  eexists. eexists. split; [reflexivity|]. split; reflexivity.
Qed.

(** X4.  Only the first content block counts: when it is a text block its
    text is the prompt, whatever follows; when it is a block without text the
    result is a Failure, even if text blocks follow. *)
Theorem first_block_decides (self : PromptGenerator)
  (user_input context prompt_type custom : PyVal) (system_text : string)
  (r : Response) (first : ContentBlock) (others : list ContentBlock) :
  _build_system_prompt str_other prompt_type custom = ret system_text ->
  client self (request_of self system_text
                 (_build_user_message str_other user_input context)) = inr r ->
  content r = Some (first :: others) ->
  outcome (generate_prompt str_other self user_input context prompt_type custom)
  = inr (match first with
         | TextBlock text => success_result self prompt_type r text
         | OtherBlock class_name =>
             failure_result (no_attribute class_name "text")
         end).
Proof.
  intros Hs Hc Hb.
  rewrite generate_prompt_unfold,
    (generate_prompt_try_resolved _ _ _ _ _ _ _ Hs).
  cbv zeta. rewrite Hc. unfold first_text. rewrite Hb.
  destruct first; reflexivity.
Qed.

(** X5.  The composed message does not tell its two parts apart: a
    user_input that ends with a blank line and "Additional context: ..." gives,
    with no context, the very message of the shorter user_input with that
    context. *)
Theorem context_can_be_forged (user_input context : string) :
  context <> EmptyString ->
  _build_user_message str_other
    (PStr (user_input ++ newline ++ newline ++ "Additional context: " ++ context))
    PNone
  = _build_user_message str_other (PStr user_input) (PStr context).
Proof.
  intros H. rewrite (build_user_message_context _ _ _ H).
  unfold _build_user_message, request_line. cbn [truthy py_format].
  now rewrite append_assoc.
Qed.

(** X6.  Template resolution fails exactly on a prompt_type that cannot be
    hashed, a list or a dictionary, and then with a TypeError; null, a
    boolean or a number resolves like an unknown category, to the general
    text. *)
Theorem resolution_by_type (prompt_type : PyVal) :
  outcome (_build_system_prompt str_other prompt_type PNone) =
  match prompt_type with
  | PList _ | PDict _ =>
      inl (TypeError ("unhashable type: '" ++ type_name prompt_type ++ "'"))
  | PStr category => inr (base_text category)
  | _ => inr general_prompt
  end.
Proof.
  destruct prompt_type; try reflexivity.
  now rewrite build_system_prompt_base.
Qed.

End GenerationMore.

Lemma unknown_category_echoed_witness :
  ~ In "poetry" known_categories /\
  exists t metadata,
    generate_prompt str_simple (stub_generator (inr story_response))
      (PStr "a sonnet") PNone (PStr "poetry") PNone
      = (t, inr (PDict [ ("success", PBool true);
                         ("prompt", PStr "Write a story...");
                         ("metadata", PDict metadata) ])) /\
    map req_system (provider_calls t) = [general_prompt] /\
    assoc "prompt_type" metadata = Some (PStr "poetry").
Proof.
  assert (H : ~ In "poetry" known_categories).
  { simpl. intros [E|[E|[E|[E|[]]]]]; discriminate E. }
  split; [exact H|].
  exact (unknown_category_echoed str_simple (stub_generator (inr story_response))
           (PStr "a sonnet") PNone "poetry" story_response "Write a story..."
           H eq_refl eq_refl).
Defined.

Lemma first_block_decides_witness :
  outcome (generate_prompt str_simple
    (stub_generator (inr (mkResponse
       (Some [OtherBlock "ToolUseBlock"; TextBlock "Write a story..."]) None)))
    (PStr "a haiku") PNone (PStr "general") PNone)
  = inr (failure_result (no_attribute "ToolUseBlock" "text")).
Proof.
  exact (first_block_decides str_simple
    (stub_generator (inr (mkResponse
       (Some [OtherBlock "ToolUseBlock"; TextBlock "Write a story..."]) None)))
    (PStr "a haiku") PNone (PStr "general") PNone general_prompt
    (mkResponse
       (Some [OtherBlock "ToolUseBlock"; TextBlock "Write a story..."]) None)
    (OtherBlock "ToolUseBlock") [TextBlock "Write a story..."]
    eq_refl eq_refl eq_refl).
Defined.

Lemma context_can_be_forged_witness :
  "about autumn" <> EmptyString /\
  _build_user_message str_simple
    (PStr ("a haiku" ++ newline ++ newline ++ "Additional context: "
             ++ "about autumn")) PNone
  = _build_user_message str_simple (PStr "a haiku") (PStr "about autumn").
Proof.
  assert (H : "about autumn" <> EmptyString) by discriminate.
  split; [exact H|].
  exact (context_can_be_forged str_simple "a haiku" "about autumn" H).
Defined.

(** * Further properties of the constructor and of the web service *)

Section ServiceMore.

Variable str_other : PyVal -> string.
Variable anthropic_Anthropic : string -> Client.
Variable getenv_ANTHROPIC_API_KEY : option string.

Lemma truthy_non_empty (o : option string) :
  truthy (of_option o) = match non_empty o with Some _ => true | None => false end.
Proof.
  destruct o as [k|]; [|reflexivity]. cbn.
  now destruct (k =? EmptyString).
Qed.

(** X7.  The constructor settles on the key given as argument when that is a
    non-empty string, and otherwise on the key of the environment when that
    is one: then it builds the client from that key and takes the given
    configuration or the default one.  With no non-empty key in either place
    it raises ValueError. *)
Theorem constructor_key (api_key : option string)
  (config : option PromptConfig) :
  outcome (PromptGenerator_init anthropic_Anthropic getenv_ANTHROPIC_API_KEY
             api_key config) =
  match effective_key api_key getenv_ANTHROPIC_API_KEY with
  | Some key =>
      inr (mkPromptGenerator key
             (match config with Some c => c | None => default_PromptConfig end)
             (anthropic_Anthropic key))
  | None => inl key_required
  end.
Proof.
  unfold PromptGenerator_init, effective_key.
  destruct api_key as [k|]; cbn [of_option truthy non_empty].
  - destruct (k =? EmptyString) eqn:Ek; cbn [negb].
    + destruct getenv_ANTHROPIC_API_KEY as [e|]; cbn [non_empty truthy];
        [|reflexivity].
      destruct (e =? EmptyString); reflexivity.
    + rewrite Ek. reflexivity.
  - destruct getenv_ANTHROPIC_API_KEY as [e|]; cbn [non_empty truthy];
      [|reflexivity].
    destruct (e =? EmptyString); reflexivity.
Qed.

(** X8.  Loading the web module never fails and never calls the provider:
    the module-level generator is None exactly when the environment holds no
    non-empty key, and from then on [GET /health] answers 500 instead of
    200. *)
Theorem module_generator :
  exists t generator,
    init_generator anthropic_Anthropic getenv_ANTHROPIC_API_KEY
      = (t, inr generator) /\
    provider_calls t = [] /\
    (generator = None <-> non_empty getenv_ANTHROPIC_API_KEY = None) /\
    status_of (health_check generator) =
      Some (match non_empty getenv_ANTHROPIC_API_KEY with
            | Some _ => 200
            | None => 500
            end)%Z.
Proof.
  unfold init_generator, PromptGenerator_init.
  cbn [of_option truthy].
  destruct getenv_ANTHROPIC_API_KEY as [e|]; cbn [non_empty truthy].
  - destruct (e =? EmptyString); cbn; eexists; eexists;
      (split; [reflexivity|]); (split; [reflexivity|]);
      (split; [|reflexivity]);
      split; intros; try discriminate; reflexivity.
  - cbn. eexists. eexists. split; [reflexivity|]. split; [reflexivity|].
    split; [|reflexivity]. split; reflexivity.
Qed.

(** X9.  The handler of [POST /generate-prompt] never raises.  It answers
    200, after exactly one call of [generate_prompt], when the generator is
    initialised and the body is an object with a user_input key; in every
    other case it answers 400 or 500 with success = false and calls neither
    [generate_prompt] nor the provider. *)
Theorem handler_answers (generator : option PromptGenerator)
  (get_json : PyExc + PyVal) :
  exists t response,
    generate_prompt_api str_other generator get_json = (t, inr response) /\
    if reaches_generator generator get_json then
      status response = 200%Z /\ List.length (generate_calls t) = 1
    else
      (status response = 400%Z \/ status response = 500%Z) /\
      is_success (body response) = false /\
      generate_calls t = [] /\ provider_calls t = [].
Proof.
  destruct generator as [g|].
  2:{ eexists. eexists. split; [reflexivity|]. cbn. tauto. }
  destruct get_json as [e|data].
  { eexists. eexists. split; [reflexivity|]. cbn. tauto. }
  destruct data as [|b|z|x|s|l|d].
  - eexists. eexists. split; [reflexivity|]. cbn. tauto.
  - destruct b; eexists; eexists; (split; [reflexivity|]); cbn; tauto.
  - unfold generate_prompt_api, generate_prompt_api_try.
    cbn [lift bind ret truthy py_in].
    destruct (z =? 0)%Z; cbn; eexists; eexists; (split; [reflexivity|]);
      cbn; tauto.
  - unfold generate_prompt_api, generate_prompt_api_try.
    cbn [lift bind ret truthy py_in].
    destruct (PrimFloat.eqb x 0); cbn; eexists; eexists;
      (split; [reflexivity|]); cbn; tauto.
  - unfold generate_prompt_api, generate_prompt_api_try.
    cbn [lift bind ret truthy py_in].
    destruct (s =? EmptyString); cbn [negb bind ret app try_except].
    + eexists. eexists. split; [reflexivity|]. cbn. tauto.
    + destruct (str_contains "user_input" s); cbn; eexists; eexists;
        (split; [reflexivity|]); cbn; tauto.
  - unfold generate_prompt_api, generate_prompt_api_try.
    cbn [lift bind ret truthy py_in].
    destruct l as [|x l]; cbn [negb bind ret app try_except].
    + eexists. eexists. split; [reflexivity|]. cbn. tauto.
    + destruct (existsb _ (x :: l)); cbn; eexists; eexists;
        (split; [reflexivity|]); cbn; tauto.
  - cbn [reaches_generator].
    destruct (assoc "user_input" d) as [u|] eqn:Hu.
    + rewrite (handler_delegates _ _ _ _ Hu).
      destruct (generate_prompt_attempt str_other g u
                  (field_or d "context" PNone)
                  (field_or d "prompt_type" (PStr "general"))
                  (field_or d "custom_instructions" PNone))
        as [t [result [E A]]].
      rewrite E. cbn [bind ret]. eexists. eexists. split; [reflexivity|].
      split; [reflexivity|]. rewrite app_nil_r.
      destruct A; reflexivity.
    + unfold generate_prompt_api, generate_prompt_api_try.
      destruct d as [|kv d]; [eexists; eexists; split; [reflexivity|]; cbn; tauto|].
      cbn [lift bind ret truthy negb py_in]. rewrite Hu. cbn.
      eexists. eexists. split; [reflexivity|]. cbn. tauto.
Qed.

(** X10.  A failure of the provider is not an error of the request: when the
    body has a user_input and the provider call raises, the handler answers
    200, the Failure result as the document. *)
Theorem provider_failure_is_200 (g : PromptGenerator)
  (d : list (string * PyVal)) (user_input : PyVal) (system_text : string)
  (e : PyExc) :
  assoc "user_input" d = Some user_input ->
  _build_system_prompt str_other (field_or d "prompt_type" (PStr "general"))
    (field_or d "custom_instructions" PNone) = ret system_text ->
  client g (request_of g system_text
              (_build_user_message str_other user_input
                 (field_or d "context" PNone))) = inl e ->
  outcome (generate_prompt_api str_other (Some g) (inr (PDict d)))
  = inr (mkHttp 200
           (PDict [ ("success", PBool false);
                    ("error", PStr (exc_str e));
                    ("prompt", PNone);
                    ("metadata", PNone) ])).
Proof.
  intros Hu Hs Hc.
  rewrite (handler_delegates _ _ _ _ Hu), generate_prompt_unfold,
    (generate_prompt_try_resolved _ _ _ _ _ _ _ Hs).
  cbv zeta. rewrite Hc. reflexivity.
Qed.

(** X11.  A body that is not an object is never passed on, and whether it is
    answered 400 or 500 follows Python's [in]: a string is answered 500 when
    "user_input" is a substring of it and 400 otherwise, an array 500 when
    the string "user_input" is one of its elements and 400 otherwise, a number
    400 when it is zero and 500 otherwise, false 400 and true 500. *)
Theorem non_object_bodies (g : PromptGenerator) :
  (forall s,
     status_of (generate_prompt_api str_other (Some g) (inr (PStr s)))
     = Some (if str_contains "user_input" s then 500 else 400)%Z) /\
  (forall l,
     status_of (generate_prompt_api str_other (Some g) (inr (PList l)))
     = Some (if existsb is_user_input l then 500 else 400)%Z) /\
  (forall z,
     status_of (generate_prompt_api str_other (Some g) (inr (PInt z)))
     = Some (if (z =? 0)%Z then 400 else 500)%Z) /\
  (forall b,
     status_of (generate_prompt_api str_other (Some g) (inr (PBool b)))
     = Some (if b then 500 else 400)%Z).
Proof.
  unfold generate_prompt_api, generate_prompt_api_try, status_of.
  split; [|split; [|split]].
  - intros s. cbn [lift bind ret truthy py_in].
    destruct (s =? EmptyString) eqn:E.
    + apply String.eqb_eq in E. subst s. reflexivity.
    + cbn [negb bind ret app].
      destruct (str_contains "user_input" s); reflexivity.
  - intros l. cbn [lift bind ret truthy py_in].
    destruct l as [|x l]; [reflexivity|].
    cbn [negb bind ret app]. fold is_user_input.
    destruct (existsb is_user_input (x :: l)); reflexivity.
  - intros z. cbn [lift bind ret truthy py_in].
    destruct (z =? 0)%Z; reflexivity.
  - intros [|]; reflexivity.
Qed.

End ServiceMore.

Lemma provider_failure_is_200_witness :
  assoc "user_input" [("user_input", PStr "a haiku")] = Some (PStr "a haiku") /\
  outcome (generate_prompt_api str_simple
             (Some (stub_generator
                      (inl (mkExc "APIConnectionError" "Connection error."))))
             (inr (PDict [("user_input", PStr "a haiku")])))
  = inr (mkHttp 200
           (PDict [ ("success", PBool false);
                    ("error", PStr "Connection error.");
                    ("prompt", PNone);
                    ("metadata", PNone) ])).
Proof.
  split; [reflexivity|].
  exact (provider_failure_is_200 str_simple
           (stub_generator (inl (mkExc "APIConnectionError" "Connection error.")))
           [("user_input", PStr "a haiku")] (PStr "a haiku") general_prompt
           (mkExc "APIConnectionError" "Connection error.")
           eq_refl eq_refl eq_refl).
Defined.

(** * Further properties of the command line *)

Section CliMore.

Variable str_other : PyVal -> string.
Variable anthropic_Anthropic : string -> Client.
Variable getenv_ANTHROPIC_API_KEY : option string.

Lemma menu_choice (type_choice : string) :
  exists p,
    dict_get_default prompt_types (PStr type_choice) "general" = ret p /\
    existsb (String.eqb p) known_categories = true.
Proof.
  unfold dict_get_default, prompt_types. cbn [assoc].
  repeat match goal with
         | |- context [if ?b then _ else _] => destruct b
         end; eexists; split; reflexivity.
Qed.

Lemma or_none_text (x : string) : none_or_text (or_none x) = true.
Proof.
  unfold or_none. cbn [truthy].
  destruct (x =? EmptyString) eqn:E; cbn; [reflexivity|]. now rewrite E.
Qed.

Lemma trace_seq {A} (m : M unit) (k : M A) :
  outcome m = inr tt -> trace_of (m ;; k) = (trace_of m ++ trace_of k)%list.
Proof.
  intros H. rewrite trace_of_bind, H. reflexivity.
Qed.

(** The calls of one pass of the loop: one, of the answers as read. *)
Lemma answer_request_calls (g : PromptGenerator)
  (user_input type_choice context custom : string) :
  exists p,
    existsb (String.eqb p) known_categories = true /\
    generate_calls
      (trace_of (try_except
                   (answer_request str_other g user_input type_choice context
                      custom) unexpected))
    = [(PStr user_input, or_none context, PStr p, or_none custom)].
Proof.
  destruct (menu_choice type_choice) as [p [Hp Hk]].
  exists p. split; [exact Hk|].
  unfold answer_request. rewrite Hp. cbn [bind ret app].
  destruct (generate_prompt_attempt str_other g (PStr user_input)
              (or_none context) (PStr p) (or_none custom))
    as [t [result [E A]]].
  rewrite E.
  destruct A as [Hh | sys e Hs Hc | sys r text Hs Hc Hf];
    [discriminate Hh | reflexivity |].
  unfold success_result, usage_field.
  destruct (usage r) as [u|]; [|reflexivity].
  cbn -[Z.add].
  destruct (input_tokens u + output_tokens u =? 0)%Z; reflexivity.
Qed.

Lemma interactive_loop_calls (g : PromptGenerator) (n : nat) :
  forall inputs run,
    List.length inputs <= n ->
    interactive_loop str_other g inputs = Some run ->
    forallb interactive_call (generate_calls (trace_of run)) = true.
Proof.
  induction n as [|n IH]; intros inputs run Hn.
  - destruct inputs; [discriminate | simpl in Hn; lia].
  - destruct inputs as [|[l1|] in1]; [discriminate| |intros [= <-]; reflexivity].
    cbn [interactive_loop]. simpl in Hn.
    destruct (is_quit (strip l1)); [intros [= <-]; reflexivity|].
    destruct (negb (truthy (PStr (strip l1)))) eqn:Hblank.
    { intros H. apply then_loop_some in H as [rest [E ->]].
      rewrite trace_seq by reflexivity.
      rewrite generate_calls_app. cbn [app].
      apply (IH in1); [lia | exact E]. }
    destruct in1 as [|[l2|] in2]; [discriminate| |intros [= <-]; reflexivity].
    destruct in2 as [|[l3|] in3]; [discriminate| |intros [= <-]; reflexivity].
    destruct in3 as [|[l4|] in4]; [discriminate| |intros [= <-]; reflexivity].
    intros H. apply then_loop_some in H as [rest [E ->]].
    rewrite trace_seq.
    2:{ do 4 (rewrite outcome_seq; [|reflexivity]). apply outcome_guarded. }
    do 4 (rewrite trace_seq; [|reflexivity]).
    rewrite !generate_calls_app.
    destruct (answer_request_calls g (strip l1) (strip l2) (strip l3) (strip l4))
      as [p [Hk Hcalls]].
    rewrite Hcalls. cbn [app generate_calls ask_request ask_type ask_context
                           ask_instructions trace_of fst].
    change (generate_calls (trace_of ask_request)) with (@nil (PyVal * PyVal * PyVal * PyVal)).
    change (generate_calls (trace_of ask_type)) with (@nil (PyVal * PyVal * PyVal * PyVal)).
    change (generate_calls (trace_of ask_context)) with (@nil (PyVal * PyVal * PyVal * PyVal)).
    change (generate_calls (trace_of ask_instructions)) with (@nil (PyVal * PyVal * PyVal * PyVal)).
    cbn [app forallb interactive_call].
    cbn [truthy] in Hblank. apply negb_false_iff in Hblank.
    rewrite Hblank, Hk, !or_none_text. cbn [andb].
    apply (IH in4); [simpl in Hn; lia | exact E].
Qed.

(** X12.  In a session of the interactive loop that ends, every call of
    [generate_prompt] has a non-empty user_input, one of the four known
    categories as prompt_type, and a context and custom instructions that are
    each null or a non-empty string. *)
Theorem interactive_calls_are_valid (g : PromptGenerator)
  (inputs : list InputEvent) (run : M unit) :
  interactive_loop str_other g inputs = Some run ->
  forallb interactive_call (generate_calls (trace_of run)) = true.
Proof.
  apply (interactive_loop_calls g (List.length inputs)). apply le_n.
Qed.

Lemma interactive_loop_starves (g : PromptGenerator) (n : nat) :
  forall inputs,
    List.length inputs <= n ->
    forallb plain_line inputs = true ->
    interactive_loop str_other g inputs = None.
Proof.
  induction n as [|n IH]; intros inputs Hn Hp.
  - destruct inputs; [reflexivity | simpl in Hn; lia].
  - destruct inputs as [|[l1|] in1]; [reflexivity| |discriminate Hp].
    cbn [interactive_loop]. simpl in Hn.
    cbn [forallb plain_line] in Hp. apply andb_true_iff in Hp as [Hq Hp].
    apply negb_true_iff in Hq. rewrite Hq.
    destruct (negb (truthy (PStr (strip l1)))).
    { rewrite (IH in1); [reflexivity | lia | exact Hp]. }
    destruct in1 as [|[l2|] in2]; [reflexivity| |discriminate Hp].
    cbn [forallb plain_line] in Hp. apply andb_true_iff in Hp as [_ Hp].
    destruct in2 as [|[l3|] in3]; [reflexivity| |discriminate Hp].
    cbn [forallb plain_line] in Hp. apply andb_true_iff in Hp as [_ Hp].
    destruct in3 as [|[l4|] in4]; [reflexivity| |discriminate Hp].
    cbn [forallb plain_line] in Hp. apply andb_true_iff in Hp as [_ Hp].
    rewrite (IH in4); [reflexivity | simpl in Hn; lia | exact Hp].
Qed.

(** X13.  Interactive mode never ends on inputs that run out: when no line
    is a word that ends the session (quit, exit or q, in any case and with
    white space around) and the user never interrupts, the loop meets the end
    of input, treats it as an unexpected error and starts over, so [main]
    returns no exit status. *)
Theorem interactive_mode_hangs_at_end_of_input (key : string) (args : Args)
  (inputs : list InputEvent) :
  getenv_ANTHROPIC_API_KEY = Some key -> key <> EmptyString ->
  truthy (of_option (args_input args)) = false ->
  forallb plain_line inputs = true ->
  exit_status (main str_other anthropic_Anthropic getenv_ANTHROPIC_API_KEY
                 args inputs) = None.
Proof.
  intros E N Hin Hp. unfold main, interactive_mode.
  rewrite (truthy_key _ key E N), Hin,
    (init_with_key anthropic_Anthropic _ key E N).
  cbn -[interactive_loop cli_generator].
  rewrite (interactive_loop_starves _ (List.length inputs) inputs (le_n _) Hp).
  reflexivity.
Qed.

(** X14.  Without a non-empty [--input] the other options play no part: two
    command lines that both lack it run the same interactive session, whatever
    their type, context, instructions and verbose options. *)
Theorem interactive_mode_ignores_options (args args' : Args)
  (inputs : list InputEvent) :
  truthy (of_option (args_input args)) = false ->
  truthy (of_option (args_input args')) = false ->
  main str_other anthropic_Anthropic getenv_ANTHROPIC_API_KEY args inputs
  = main str_other anthropic_Anthropic getenv_ANTHROPIC_API_KEY args' inputs.
Proof.
  intros H H'. unfold main. now rewrite H, H'.
Qed.

(** X15.  What single-prompt mode writes.  After a successful generation
    standard output holds the prompt and nothing else, and what the program
    itself writes on standard error is, unless [--verbose] is given, only the
    INFO record of the constructor; after a failed one standard output is
    empty, and standard error holds that INFO record, the ERROR record of
    [generate_prompt] and then the line "Error: " and the message. *)
Theorem single_prompt_mode_streams (key : string) (args : Args) :
  getenv_ANTHROPIC_API_KEY = Some key -> key <> EmptyString ->
  exists tg result t code,
    generate_prompt str_other (cli_generator anthropic_Anthropic key)
      (of_option (args_input args)) (of_option (args_context args))
      (PStr (args_type args)) (of_option (args_instructions args))
      = (tg, inr result) /\
    single_prompt_mode str_other anthropic_Anthropic getenv_ANTHROPIC_API_KEY
      args = (t, inr code) /\
    (is_success result = true ->
     exists text,
       py_getitem result "prompt" = ret (PStr text) /\
       printed_out t = [text] /\
       (args_verbose args = false ->
        standard_error t =
          [LogInfo ("PromptGenerator initialized with model: "
                      ++ model default_PromptConfig)])) /\
    (is_success result = false ->
     exists message,
       py_getitem result "error" = ret (PStr message) /\
       printed_out t = [] /\
       standard_error t =
         [ LogInfo ("PromptGenerator initialized with model: "
                      ++ model default_PromptConfig);
           LogError ("Error generating prompt: " ++ message);
           Print Stderr ("Error: " ++ message) ]).
Proof.
  intros E N. unfold single_prompt_mode.
  rewrite (init_with_key anthropic_Anthropic _ key E N).
  cbn [bind ret try_except app].
  destruct (generate_prompt_attempt str_other
              (cli_generator anthropic_Anthropic key)
              (of_option (args_input args)) (of_option (args_context args))
              (PStr (args_type args)) (of_option (args_instructions args)))
    as [tg [result [G A]]].
  rewrite G. exists tg, result.
  destruct A as [Hh | sys e Hs Hc | sys r text Hs Hc Hf].
  - discriminate Hh.
  - eexists. eexists. split; [reflexivity|]. split; [reflexivity|].
    split; [discriminate|]. intros _. eexists. repeat split.
  - unfold success_result, usage_field.
    destruct (args_verbose args).
    + destruct (usage r) as [u|].
      * cbn -[Z.add].
        destruct (input_tokens u + output_tokens u =? 0)%Z;
          eexists; eexists; (split; [reflexivity|]); (split; [reflexivity|]);
          (split; [|discriminate]); intros _; exists text;
          (split; [reflexivity|]); (split; [reflexivity|]); discriminate.
      * eexists. eexists. split; [reflexivity|]. split; [reflexivity|].
        split; [|discriminate]. intros _. exists text.
        split; [reflexivity|]. split; [reflexivity|]. discriminate.
    + eexists. eexists. split; [reflexivity|]. split; [reflexivity|].
      split; [|discriminate]. intros _. exists text.
      split; [reflexivity|]. split; reflexivity.
Qed.

(** X16.  The example [main] of prompt_generator.py always ends normally.
    Without a key in the environment it prints one line, "Error: " and the
    text of the ValueError, calls nothing and writes nothing on standard
    error.  With a key it calls [generate_prompt] once, for the category
    creative; after a Success it prints "Generated Prompt:", the prompt of
    the result and "Tokens used: " with the tokens_used of its metadata, and
    its only write on standard error is the INFO record of the constructor;
    after a Failure it prints one line, "Error: " and the error of the
    result, and standard error holds the INFO record and the ERROR record of
    [generate_prompt]. *)
Theorem example_main_ends :
  exists t,
    prompt_generator_main str_other anthropic_Anthropic
      getenv_ANTHROPIC_API_KEY = (t, inr tt) /\
    match non_empty getenv_ANTHROPIC_API_KEY with
    | None =>
        printed_out t = ["Error: " ++ exc_str key_required] /\
        standard_error t = [] /\
        generate_calls t = [] /\ provider_calls t = []
    | Some key =>
        exists tg result,
          generate_prompt str_other (cli_generator anthropic_Anthropic key)
            (PStr "Create a prompt for writing a science fiction story about time travel")
            PNone (PStr "creative") PNone = (tg, inr result) /\
          generate_calls t =
            [(PStr "Create a prompt for writing a science fiction story about time travel",
              PNone, PStr "creative", PNone)] /\
          if is_success result then
            exists text metadata tokens,
              py_getitem result "prompt" = ret (PStr text) /\
              py_getitem result "metadata" = ret metadata /\
              py_getitem metadata "tokens_used" = ret tokens /\
              printed_out t =
                [ "Generated Prompt:"; text;
                  newline ++ "Tokens used: " ++ py_format str_other tokens ] /\
              standard_error t =
                [LogInfo ("PromptGenerator initialized with model: "
                            ++ model default_PromptConfig)]
          else
            exists message,
              py_getitem result "error" = ret (PStr message) /\
              printed_out t = ["Error: " ++ message] /\
              standard_error t =
                [ LogInfo ("PromptGenerator initialized with model: "
                             ++ model default_PromptConfig);
                  LogError ("Error generating prompt: " ++ message) ]
    end.
Proof.
  unfold prompt_generator_main, PromptGenerator_init.
  cbn [of_option truthy].
  assert (Hnone : exists t,
    try_except
      (generator <- @raise PromptGenerator key_required ;;
       result <- generate_prompt str_other generator
                   (PStr "Create a prompt for writing a science fiction story about time travel")
                   PNone (PStr "creative") PNone ;;
       success <- py_getitem result "success" ;;
       if truthy success then
         print "Generated Prompt:" ;;
         prompt <- py_getitem result "prompt" ;;
         print (py_format str_other prompt) ;;
         metadata <- py_getitem result "metadata" ;;
         tokens <- py_getitem metadata "tokens_used" ;;
         print (newline ++ "Tokens used: " ++ py_format str_other tokens)
       else
         error <- py_getitem result "error" ;;
         print ("Error: " ++ py_format str_other error))
      (fun e => print ("Error: " ++ exc_str e)) = (t, inr tt) /\
    printed_out t = ["Error: " ++ exc_str key_required] /\
    standard_error t = [] /\
    generate_calls t = [] /\ provider_calls t = []).
  { eexists. split; [reflexivity|]. repeat split. }
  destruct getenv_ANTHROPIC_API_KEY as [k|]; cbn [non_empty truthy];
    [|exact Hnone].
  destruct (k =? EmptyString) eqn:Ek; cbn [negb]; [exact Hnone|].
  clear Hnone. cbn [bind ret logger_info emit app].
  fold (cli_generator anthropic_Anthropic k).
  destruct (generate_prompt_attempt str_other
              (cli_generator anthropic_Anthropic k)
              (PStr "Create a prompt for writing a science fiction story about time travel")
              PNone (PStr "creative") PNone) as [tg [result [G A]]].
  rewrite G.
  destruct A as [Hh | sys e Hs Hc | sys r text Hs Hc Hf].
  - discriminate Hh.
  - eexists. split; [reflexivity|].
    eexists. eexists. split; [reflexivity|]. split; [reflexivity|].
    exists (exc_str e). split; [reflexivity|]. split; reflexivity.
  - assert (Hu : exists tokens,
      usage_field r (fun u => input_tokens u + output_tokens u)%Z = tokens)
      by (eexists; reflexivity).
    destruct Hu as [tokens Hu].
    unfold success_result. rewrite Hu.
    eexists. split; [reflexivity|].
    eexists. eexists. split; [reflexivity|]. split; [reflexivity|].
    exists text. eexists. exists tokens.
    split; [reflexivity|]. split; [reflexivity|]. split; [reflexivity|].
    split; reflexivity.
Qed.

End CliMore.

Lemma interactive_calls_are_valid_witness :
  exists run,
    interactive_loop str_simple (stub_generator (inr story_response))
      [ Line "a haiku"; Line "2"; Line EmptyString; Line " Be brief ";
        Line "QUIT" ] = Some run /\
    generate_calls (trace_of run)
      = [(PStr "a haiku", PNone, PStr "creative", PStr "Be brief")] /\
    forallb interactive_call (generate_calls (trace_of run)) = true.
Proof.
  eexists. split; [reflexivity|]. split; [reflexivity|].
  apply (interactive_calls_are_valid str_simple
           (stub_generator (inr story_response))
           [ Line "a haiku"; Line "2"; Line EmptyString; Line " Be brief ";
             Line "QUIT" ]).
  reflexivity.
Defined.

Lemma interactive_mode_hangs_at_end_of_input_witness :
  forallb plain_line [Line "a haiku"; Line "1"] = true /\
  exit_status (main str_simple story_sdk (Some "sk-test") interactive_args
                 [Line "a haiku"; Line "1"]) = None.
Proof.
  assert (N : "sk-test" <> EmptyString) by discriminate.
  split; [reflexivity|].
  exact (interactive_mode_hangs_at_end_of_input str_simple story_sdk
           (Some "sk-test") "sk-test" interactive_args
           [Line "a haiku"; Line "1"] eq_refl N eq_refl eq_refl).
Defined.

Lemma interactive_mode_ignores_options_witness :
  main str_simple story_sdk (Some "sk-test") interactive_args [Line "q"]
  = main str_simple story_sdk (Some "sk-test")
      (mkArgs (Some EmptyString) "image" (Some "for children") None true)
      [Line "q"].
Proof.
  exact (interactive_mode_ignores_options str_simple story_sdk (Some "sk-test")
           interactive_args
           (mkArgs (Some EmptyString) "image" (Some "for children") None true)
           [Line "q"] eq_refl eq_refl).
Defined.

Lemma single_prompt_mode_streams_witness :
  "sk-test" <> EmptyString /\
  exists tg result t code,
    generate_prompt str_simple (cli_generator failing_sdk "sk-test")
      (of_option (args_input single_args)) (of_option (args_context single_args))
      (PStr (args_type single_args)) (of_option (args_instructions single_args))
      = (tg, inr result) /\
    single_prompt_mode str_simple failing_sdk (Some "sk-test") single_args
      = (t, inr code) /\
    (is_success result = true ->
     exists text,
       py_getitem result "prompt" = ret (PStr text) /\
       printed_out t = [text] /\
       (args_verbose single_args = false ->
        standard_error t =
          [LogInfo ("PromptGenerator initialized with model: "
                      ++ model default_PromptConfig)])) /\
    (is_success result = false ->
     exists message,
       py_getitem result "error" = ret (PStr message) /\
       printed_out t = [] /\
       standard_error t =
         [ LogInfo ("PromptGenerator initialized with model: "
                      ++ model default_PromptConfig);
           LogError ("Error generating prompt: " ++ message);
           Print Stderr ("Error: " ++ message) ]).
Proof.
  assert (N : "sk-test" <> EmptyString) by discriminate.
  split; [exact N|].
  exact (single_prompt_mode_streams str_simple failing_sdk (Some "sk-test")
           "sk-test" single_args eq_refl N).
Defined.

(** * The four tables of categories *)

(** X17.  The categories are written down four times, and the four agree: a
    value is advertised by [GET /prompt-types] exactly when the catalog has a
    text of its own for it, exactly when [--type] accepts it, and exactly
    when a choice of the interactive menu stands for it. *)
Theorem advertised_types_agree (v : string) :
  (In v advertised_types <-> exists text, assoc v base_prompts = Some text) /\
  (In v advertised_types <-> In v type_choices) /\
  (In v advertised_types <-> exists choice, assoc choice prompt_types = Some v).
Proof.
  change advertised_types with ["general"; "creative"; "technical"; "image"].
  split; [|split].
  - split.
    + intros [<-|[<-|[<-|[<-|[]]]]]; eexists; reflexivity.
    + intros [text H]. unfold base_prompts in H. cbn [assoc] in H.
      destruct (String.eqb_spec "general" v); [subst; simpl; tauto|].
      destruct (String.eqb_spec "creative" v); [subst; simpl; tauto|].
      destruct (String.eqb_spec "technical" v); [subst; simpl; tauto|].
      destruct (String.eqb_spec "image" v); [subst; simpl; tauto|].
      discriminate H.
  - reflexivity.
  - split.
    + intros [<-|[<-|[<-|[<-|[]]]]];
        [exists "1"|exists "2"|exists "3"|exists "4"]; reflexivity.
    + intros [choice H]. unfold prompt_types in H. cbn [assoc] in H.
      destruct ("1" =? choice); [injection H as <-; simpl; tauto|].
      destruct ("2" =? choice); [injection H as <-; simpl; tauto|].
      destruct ("3" =? choice); [injection H as <-; simpl; tauto|].
      destruct ("4" =? choice); [injection H as <-; simpl; tauto|].
      discriminate H.
Qed.

(** * What reaches the provider *)

Section RequestMore.

Variable str_other : PyVal -> string.

(** X18.  Nothing is cut or escaped on the way to the provider: for a
    category, a user_input, a non-empty context and non-empty custom
    instructions, all strings, the one request sent has as system text the
    base text of the category, a blank line and "Additional instructions: "
    with the custom text, and as its message the request line with the
    user_input, a blank line and "Additional context: " with the context,
    each text in full. *)
Theorem request_is_verbatim (self : PromptGenerator)
  (category user_input context custom : string) :
  context <> EmptyString -> custom <> EmptyString ->
  exists t result,
    generate_prompt str_other self (PStr user_input) (PStr context)
      (PStr category) (PStr custom) = (t, inr result) /\
    provider_calls t =
      [ {| req_model := model (config self);
           req_max_tokens := max_tokens (config self);
           req_temperature := temperature (config self);
           req_system :=
             base_text category ++ newline ++ newline
               ++ "Additional instructions: " ++ custom;
           req_messages :=
             [("user",
               "Please create a prompt based on this request: " ++ user_input
                 ++ newline ++ newline ++ "Additional context: " ++ context)]
        |} ].
Proof.
  intros Hc Hi.
  pose proof (build_system_prompt_custom str_other category custom Hi) as Hs.
  pose proof (build_user_message_context str_other user_input context Hc) as Hm.
  unfold request_line in Hm. rewrite append_assoc in Hm.
  rewrite generate_prompt_unfold,
    (generate_prompt_try_resolved _ _ _ _ _ _ _ Hs).
  cbv zeta. rewrite Hm. unfold request_of.
  destruct (client self _) as [e|r].
  - eexists. eexists. split; reflexivity.
  - destruct (first_text r) as [tf [e|text]];
      eexists; eexists; split; reflexivity.
Qed.

End RequestMore.

Lemma request_is_verbatim_witness :
  "for children" <> EmptyString /\ "Be brief" <> EmptyString /\
  exists t result,
    generate_prompt str_simple (stub_generator (inr story_response))
      (PStr "a story") (PStr "for children") (PStr "creative") (PStr "Be brief")
      = (t, inr result) /\
    provider_calls t =
      [ {| req_model := model default_PromptConfig;
           req_max_tokens := max_tokens default_PromptConfig;
           req_temperature := temperature default_PromptConfig;
           req_system :=
             base_text "creative" ++ newline ++ newline
               ++ "Additional instructions: " ++ "Be brief";
           req_messages :=
             [("user",
               "Please create a prompt based on this request: " ++ "a story"
                 ++ newline ++ newline ++ "Additional context: "
                 ++ "for children")]
        |} ].
Proof.
  assert (Hc : "for children" <> EmptyString) by discriminate.
  assert (Hi : "Be brief" <> EmptyString) by discriminate.
  split; [exact Hc|]. split; [exact Hi|].
  exact (request_is_verbatim str_simple (stub_generator (inr story_response))
           "creative" "a story" "for children" "Be brief" Hc Hi).
Defined.
